(** * Manual probing engine of [bug_bounty_tool.py]

    A shallow embedding of the differential probing code of
    [AdvancedBugBountyTool]: [manual_xss_testing] / [test_xss_payload],
    [manual_sqli_testing] / [test_sqli_payload], [manual_cors_testing] and
    the URL corpus built by [comprehensive_url_collection].

    Python strings are modelled as [string] (sequences of code points below
    256); the HTTP layer ([requests.get], [requests.post]) is a parameter
    [transport] that answers a request with a response or raises. *)

From Stdlib Require Import String Ascii List ZArith NArith Lia Bool Floats Permutation.
From stdpp Require Import gmap strings list.
Import ListNotations.

Local Open Scope string_scope.
Local Open Scope list_scope.

(* Decimal literals such as 0.2 denote the nearest binary64 value, as in
   Python. *)
Set Warnings "-inexact-float".

(** ** Python string primitives *)

Module PyStr.

(** [s.startswith(p)]. *)
Fixpoint startswith (p s : string) : bool :=
  match p, s with
  | EmptyString, _ => true
  | String a p', String b s' => if Ascii.eqb a b then startswith p' s' else false
  | String _ _, EmptyString => false
  end.

(** [sub in s]: [sub] occurs in [s] as a contiguous substring. *)
Fixpoint str_in (sub s : string) : bool :=
  startswith sub s ||
  match s with
  | EmptyString => false
  | String _ s' => str_in sub s'
  end.

(** [c in s] for a one-character [c]. *)
Fixpoint chr_in (c : ascii) (s : string) : bool :=
  match s with
  | EmptyString => false
  | String b s' => Ascii.eqb c b || chr_in c s'
  end.

(** [s.replace(c, new)] for a one-character [c]: every occurrence of [c],
    left to right, is replaced by [new]. *)
Fixpoint replace_chr (c : ascii) (new : string) (s : string) : string :=
  match s with
  | EmptyString => EmptyString
  | String b s' =>
      if Ascii.eqb b c then String.append new (replace_chr c new s')
      else String b (replace_chr c new s')
  end.

(** [str.lower] on one code point below 256: ASCII [A-Z] and the Latin-1
    capitals U+00C0..U+00DE (U+00D7, the multiplication sign, excepted) move
    up by 32; everything else is unchanged. *)
Definition lower_chr (c : ascii) : ascii :=
  let n := N_of_ascii c in
  if ((65 <=? n) && (n <=? 90))%N then ascii_of_N (n + 32)
  else if ((192 <=? n) && (n <=? 222) && negb (n =? 215))%N then ascii_of_N (n + 32)
  else c.

(** [s.lower()]. *)
Fixpoint lower (s : string) : string :=
  match s with
  | EmptyString => EmptyString
  | String c s' => String (lower_chr c) (lower s')
  end.

(** [s.split(c)] for a one-character separator: the pieces between the
    occurrences of [c]; never empty. *)
Fixpoint split_chr (c : ascii) (s : string) : list string :=
  match s with
  | EmptyString => [EmptyString]
  | String b s' =>
      if Ascii.eqb b c then EmptyString :: split_chr c s'
      else match split_chr c s' with
           | [] => [String b EmptyString]
           | piece :: rest => String b piece :: rest
           end
  end.

(** Upper-case hexadecimal digit of a value below 16. *)
Definition hex_digit (n : N) : ascii :=
  if (n <? 10)%N then ascii_of_N (48 + n) else ascii_of_N (55 + n).

(** [%XX] for one byte. *)
Definition percent_byte (b : N) : string :=
  String "%" (String (hex_digit (b / 16)) (String (hex_digit (b mod 16)) EmptyString)).

(** Characters [urllib.parse.quote] never escapes (letters, digits,
    [_.-~]) together with its default [safe='/']. *)
Definition quote_safe (c : ascii) : bool :=
  let n := N_of_ascii c in
  (((65 <=? n) && (n <=? 90)) || ((97 <=? n) && (n <=? 122)) ||
   ((48 <=? n) && (n <=? 57)) ||
   (n =? 95) || (n =? 46) || (n =? 45) || (n =? 126) || (n =? 47))%N.

(** [quote] of one code point: kept when safe, else the [%XX] escapes of
    its UTF-8 encoding (one byte below 128, two bytes from 128 to 255). *)
Definition quote_chr (c : ascii) : string :=
  let n := N_of_ascii c in
  if quote_safe c then String c EmptyString
  else if (n <? 128)%N then percent_byte n
  else String.append (percent_byte (192 + n / 64)) (percent_byte (128 + n mod 64)).

(** [urllib.parse.quote(s)]. *)
Fixpoint quote (s : string) : string :=
  match s with
  | EmptyString => EmptyString
  | String c s' => String.append (quote_chr c) (quote s')
  end.

(** [re.sub(pattern, '=' + repl, s)] where [pattern] is an equals sign
    followed by a group of zero or more characters other than the
    ampersand, for a [repl] free of backslashes (the result of [quote]
    always is): each [=] together with the run of non-[&] characters after
    it is replaced by [=] followed by [repl].
    [in_value] is true while the scan is inside such a run. *)
Fixpoint re_sub_scan (repl : string) (in_value : bool) (s : string) : string :=
  match s with
  | EmptyString => EmptyString
  | String c s' =>
      if in_value then
        if Ascii.eqb c "&" then String c (re_sub_scan repl false s')
        else re_sub_scan repl true s'
      else
        if Ascii.eqb c "=" then
          String "=" (String.append repl (re_sub_scan repl true s'))
        else String c (re_sub_scan repl false s')
  end.

Definition re_sub_value (repl : string) (s : string) : string :=
  re_sub_scan repl false s.

End PyStr.

Import PyStr.

(** ** HTTP layer and result records *)

Inductive http_method := GET | POST.

(** What [requests.get] / [requests.post] is called with. *)
Record request := mkRequest {
  req_method : http_method;
  req_url : string;
  req_headers : list (string * string);
  req_data : list (string * string);
  req_timeout : Z
}.

(** The fields of a [requests.Response] the engine reads: [text],
    [elapsed.total_seconds()] (a binary64 float) and [headers]. *)
Record response := mkResponse {
  text : string;
  elapsed_seconds : float;
  headers : list (string * string)
}.

(** [urllib.parse.ParseResult]. *)
Record ParseResult := mkParseResult {
  scheme : string;
  netloc : string;
  path : string;
  params : string;
  query : string;
  fragment : string
}.

Inductive risk := Critical | High | Medium | Low.

Inductive vuln_type :=
  | reflected_xss | post_xss | error_based_sqli | time_based_sqli | sql_injection.

(** The result dictionaries appended to [xss_vulnerabilities] and
    [sqli_vulnerabilities]; a key a dictionary does not have is [None]. *)
Record finding := mkFinding {
  f_url : string;
  f_parameter : option string;
  f_payload : option string;
  f_type : vuln_type;
  f_method : option http_method;
  f_evidence : option string;
  f_time_difference : option float;
  f_tool : option string;
  f_risk : risk
}.

(** The dictionaries appended to [cors_issues] (their ['type'] is always
    ['cors_misconfiguration']). *)
Record cors_issue := mkCorsIssue {
  c_url : string;
  c_origin : string;
  c_acao : string;
  c_acac : string;
  c_risk : risk
}.

(** ** Requests, exceptions and the request trace

    A computation either returns a value or raises ([None]); either way it
    leaves the list of requests it sent. *)

Definition M (A : Type) : Type := (option A * list request)%type.

Definition ret {A} (a : A) : M A := (Some a, []).

Definition bind {A B} (m : M A) (k : A -> M B) : M B :=
  match m with
  | (Some a, tr) => let '(b, tr') := k a in (b, tr ++ tr')
  | (None, tr) => (None, tr)
  end.

Notation "x <- m ;; k" := (bind m (fun x => k))
  (at level 100, m at next level, right associativity).

(** [try: body / except: pass] followed by [return default]. *)
Definition try_except {A} (body : M A) (default : A) : A * list request :=
  match body with
  | (Some a, tr) => (a, tr)
  | (None, tr) => (default, tr)
  end.

(** A value that may be missing, where missing raises. *)
Definition or_raise {A} (o : option A) : M A := (o, []).

(** Python dictionaries with string keys, in insertion order. *)
Module PyDict.

Fixpoint set_item (d : list (string * string)) (k v : string) : list (string * string) :=
  match d with
  | [] => [(k, v)]
  | (k', v') :: d' =>
      if String.eqb k' k then (k', v) :: d' else (k', v') :: set_item d' k v
  end.

(** [dict(pairs)]. *)
Definition of_pairs (pairs : list (string * string)) : list (string * string) :=
  fold_left (fun d kv => set_item d (fst kv) (snd kv)) pairs [].

Definition keys (d : list (string * string)) : list string := map fst d.

End PyDict.

(** [CaseInsensitiveDict.get(name, '')] on the response headers. *)
Fixpoint headers_get (hs : list (string * string)) (name : string) : string :=
  match hs with
  | [] => ""
  | (k, v) :: hs' =>
      if String.eqb (lower k) (lower name) then v else headers_get hs' name
  end.

Section Engine.

(** The network: the response to a request, or [None] when the call raises
    (connection refused, timeout, DNS failure, ...). *)
Variable transport : request -> option response.

(** [urllib.parse.urlparse]; [None] when it raises [ValueError]. *)
Variable urlparse : string -> option ParseResult.

Definition send (r : request) : M response := (transport r, [r]).

(** [requests.get(url, timeout=t, verify=False)]. *)
Definition requests_get (url : string) (t : Z) : M response :=
  send (mkRequest GET url [] [] t).

(** [requests.get(url, headers=hs, timeout=t, verify=False)]. *)
Definition requests_get_headers (url : string) (hs : list (string * string)) (t : Z)
  : M response :=
  send (mkRequest GET url hs [] t).

(** [requests.post(url, data=d, timeout=t, verify=False)]. *)
Definition requests_post (url : string) (d : list (string * string)) (t : Z)
  : M response :=
  send (mkRequest POST url [] d t).

(** ** XSS: [test_xss_payload] *)

(** [payload.replace('<', '&lt;').replace('>', '&gt;')]. *)
Definition escaped_form (payload : string) : string :=
  replace_chr ">" "&gt;" (replace_chr "<" "&lt;" payload).

(** The condition of the GET reflection test. *)
Definition reflection_check (payload body : string) : bool :=
  negb (str_in (escaped_form payload) body) && str_in payload body.

(** [re.sub(...)] of the payload into every parameter value of [url]. *)
Definition inject (url payload : string) : string :=
  re_sub_value (quote payload) url.

(** The GET part: [Some f] is [return f]; [None] falls through. *)
Definition xss_get_test (url payload : string) : M (option finding) :=
  if chr_in "=" url then
    let test_url := inject url payload in
    response <- requests_get test_url 10 ;;
    if reflection_check payload (text response) then
      ret (Some (mkFinding test_url None (Some payload) reflected_xss (Some GET)
                           None None None High))
    else ret None
  else ret None.

(** [param.split('=')] as an item of [dict(...)]: a piece with more than
    one [=] gives more than two parts and [dict] raises. *)
Definition split_param (param : string) : option (string * string) :=
  match split_chr "=" param with
  | [k; v] => Some (k, v)
  | _ => None
  end.

Fixpoint parse_params (pieces : list string) : M (list (string * string)) :=
  match pieces with
  | [] => ret []
  | param :: rest =>
      if chr_in "=" param then
        kv <- or_raise (split_param param) ;;
        kvs <- parse_params rest ;;
        ret (kv :: kvs)
      else parse_params rest
  end.

(** The loop [for param in params] of the POST part. *)
Fixpoint xss_post_loop (base_url payload : string) (params0 : list (string * string))
    (todo : list string) : M (option finding) :=
  match todo with
  | [] => ret None
  | param :: rest =>
      let test_params := PyDict.set_item params0 param payload in
      response <- requests_post base_url test_params 10 ;;
      if str_in payload (text response) then
        ret (Some (mkFinding base_url (Some param) (Some payload) post_xss (Some POST)
                             None None None High))
      else xss_post_loop base_url payload params0 rest
  end.

Definition xss_post_test (url payload : string) : M (option finding) :=
  parsed_url <- or_raise (urlparse url) ;;
  if negb (String.eqb (query parsed_url) "") then
    let base_url :=
      String.append (scheme parsed_url)
        (String.append "://" (String.append (netloc parsed_url) (path parsed_url))) in
    pairs <- parse_params (split_chr "&" (query parsed_url)) ;;
    let params0 := PyDict.of_pairs pairs in
    xss_post_loop base_url payload params0 (PyDict.keys params0)
  else ret None.

(** The body of the [try]. *)
Definition test_xss_payload_body (url payload : string) : M (option finding) :=
  r <- xss_get_test url payload ;;
  match r with
  | Some f => ret (Some f)
  | None => xss_post_test url payload
  end.

Definition test_xss_payload (url payload : string) : option finding * list request :=
  try_except (test_xss_payload_body url payload) None.

(** ** SQL injection: [test_sqli_payload] *)

Definition sql_errors : list string :=
  ["sql syntax"; "mysql"; "ora-"; "postgresql"; "sqlite"; "sybase"].

(** The loop over [sql_errors]: the first signature found in the lowered
    test body and not in the lowered original body. *)
Definition error_signature_check (test_content original_content : string)
  : option string :=
  List.find (fun error => str_in error (lower test_content)
                          && negb (str_in error (lower original_content)))
            sql_errors.

(** [test_time > original_time + 5]. *)
Definition timing_check (original_time test_time : float) : bool :=
  PrimFloat.ltb (PrimFloat.add original_time 5%float) test_time.

(** The time-based block at the end of the [try]. *)
Definition timing_classifier (test_url payload : string)
    (original_time test_time : float) : option finding :=
  if timing_check original_time test_time then
    Some (mkFinding test_url None (Some payload) time_based_sqli None None
                    (Some (PrimFloat.sub test_time original_time)) None High)
  else None.

Definition test_sqli_payload_body (url payload : string) : M (option finding) :=
  original_response <- requests_get url 10 ;;
  let original_time := elapsed_seconds original_response in
  let original_content := text original_response in
  let test_url := inject url payload in
  test_response <- requests_get test_url 15 ;;
  let test_time := elapsed_seconds test_response in
  let test_content := text test_response in
  match error_signature_check test_content original_content with
  | Some error =>
      ret (Some (mkFinding test_url None (Some payload) error_based_sqli None
                           (Some error) None None High))
  | None => ret (timing_classifier test_url payload original_time test_time)
  end.

Definition test_sqli_payload (url payload : string) : option finding * list request :=
  try_except (test_sqli_payload_body url payload) None.

(** ** The thread-pool scans *)

(** [[url for url in self.results['urls'] if '=' in url]]. *)
Definition urls_with_params (urls : list string) : list string :=
  List.filter (fun url => chr_in "=" url) urls.

(** The futures in submission order: the first [n_urls] parameterised URLs,
    each with the first [n_payloads] payloads. *)
Definition units (n_urls n_payloads : nat) (urls payloads : list string)
  : list (string * string) :=
  flat_map (fun url => map (fun payload => (url, payload)) (firstn n_payloads payloads))
           (firstn n_urls (urls_with_params urls)).

(** [for future in as_completed(futures)]: every non-[None] result is
    appended to the list, in the order the futures complete. *)
Definition collect (completed : list (option finding)) (acc : list finding)
  : list finding :=
  fold_left (fun acc result => match result with
                               | Some f => acc ++ [f]
                               | None => acc
                               end) completed acc.

Definition xss_units (urls xss_payloads : list string) : list (string * string) :=
  units 50 5 urls xss_payloads.

Definition sqli_units (urls sqli_payloads : list string) : list (string * string) :=
  units 20 4 urls sqli_payloads.

Definition xss_futures (urls xss_payloads : list string)
  : list (option finding * list request) :=
  map (fun u => test_xss_payload (fst u) (snd u)) (xss_units urls xss_payloads).

Definition sqli_futures (urls sqli_payloads : list string)
  : list (option finding * list request) :=
  map (fun u => test_sqli_payload (fst u) (snd u)) (sqli_units urls sqli_payloads).

(** [manual_xss_testing(xss_vulnerabilities)]: [as_completed] yields the
    futures in some order of completion, any permutation of the submitted
    ones; [out] is the list afterwards. *)
Definition manual_xss_testing (urls xss_payloads : list string)
    (xss_vulnerabilities out : list finding) : Prop :=
  exists completed,
    Permutation (map fst (xss_futures urls xss_payloads)) completed /\
    out = collect completed xss_vulnerabilities.

Definition manual_sqli_testing (urls sqli_payloads : list string)
    (sqli_vulnerabilities out : list finding) : Prop :=
  exists completed,
    Permutation (map fst (sqli_futures urls sqli_payloads)) completed /\
    out = collect completed sqli_vulnerabilities.

(** The run in which the futures complete in submission order. *)
Definition manual_xss_testing_in_order (urls xss_payloads : list string)
    (xss_vulnerabilities : list finding) : list finding :=
  collect (map fst (xss_futures urls xss_payloads)) xss_vulnerabilities.

Definition manual_sqli_testing_in_order (urls sqli_payloads : list string)
    (sqli_vulnerabilities : list finding) : list finding :=
  collect (map fst (sqli_futures urls sqli_payloads)) sqli_vulnerabilities.

(** Every request a SQLi scan sends, grouped by unit. *)
Definition sqli_requests (urls sqli_payloads : list string) : list request :=
  concat (map snd (sqli_futures urls sqli_payloads)).

(** ** CORS: [manual_cors_testing] *)

Definition test_origins : list string :=
  ["https://evil.com"; "null"; "https://attacker.com"].

(** The body of the [try] for one [(url, origin)]. *)
Definition cors_probe (url origin : string) : M (option cors_issue) :=
  response <- requests_get_headers url [("Origin", origin)] 10 ;;
  let acao := headers_get (headers response) "Access-Control-Allow-Origin" in
  let acac := headers_get (headers response) "Access-Control-Allow-Credentials" in
  if String.eqb acao origin || String.eqb acao "*" then
    ret (Some (mkCorsIssue url origin acao acac
                           (if String.eqb acac "true" then High else Medium)))
  else ret None.

(** [try: ... except: continue]. *)
Definition cors_unit (url origin : string) : option cors_issue * list request :=
  try_except (cors_probe url origin) None.

Definition cors_units (live_subdomains : list string) : list (string * string) :=
  flat_map (fun url => map (fun origin => (url, origin)) test_origins)
           (firstn 10 live_subdomains).

(** The two nested [for] loops, run in order. *)
Definition manual_cors_testing (live_subdomains : list string)
    (cors_issues : list cors_issue) : list cors_issue :=
  fold_left (fun acc u => match fst (cors_unit (fst u) (snd u)) with
                          | Some issue => acc ++ [issue]
                          | None => acc
                          end) (cors_units live_subdomains) cors_issues.

End Engine.

(** ** The URL corpus: [comprehensive_url_collection] *)

(** Every source adds its strings to the one set [all_urls]; [harvested]
    is everything the sources add, and the result is
    [self.results['urls'] = list(all_urls)], in the order the set
    enumerates. *)
Definition all_urls (harvested : list string) : gset string :=
  list_to_set harvested.

Definition comprehensive_url_collection (harvested : list string) : list string :=
  elements (all_urls harvested).

(** The candidate list every manual scan starts from. *)
Definition corpus (harvested : list string) : list string :=
  urls_with_params (comprehensive_url_collection harvested).

(** ** Payload catalogue *)

Definition dq : string := String (ascii_of_nat 34) EmptyString.

(** [self.xss_payloads[:5]]: the first five entries of the catalogue. *)
Definition xss_payloads_first5 : list string :=
  [ "<script>alert(1)</script>";
    String.concat "" [dq; "><script>alert(1)</script>"];
    "<xss onafterscriptexecute=alert(1)><script>1</script>";
    String.concat "" ["<style>@keyframes x{from {left:0;}to {left: 1000px;}}:target {animation:10s ease-in-out 0s 1 x;}</style><xss id=x style="; dq; "position:absolute;"; dq; " onanimationcancel="; dq; "print()"; dq; "></xss>"];
    String.concat "" ["<style>@keyframes x{}</style><xss style="; dq; "animation-name:x"; dq; " onanimationend="; dq; "alert(1)"; dq; "></xss>"] ].

(** [self.sqli_payloads[:4]]: the first four entries of the catalogue. *)
Definition sqli_payloads_first4 : list string :=
  [ "' OR '1'='1"; "' OR 1=1--"; "' OR 1=1#"; "admin'--" ].

(** ** Vocabulary of the properties *)

(** The baseline request of [test_sqli_payload] for [url]. *)
Definition baseline_request (url : string) : request :=
  mkRequest GET url [] [] 10.

(** The mutated request of [test_sqli_payload]. *)
Definition sqli_probe_request (url payload : string) : request :=
  mkRequest GET (inject url payload) [] [] 15.

(** The mutated GET request of [test_xss_payload]. *)
Definition xss_probe_request (url payload : string) : request :=
  mkRequest GET (inject url payload) [] [] 10.






(** The deduplication key of the aggregation: (url, parameter, type). *)
Definition finding_key (f : finding) : string * option string * vuln_type :=
  (f_url f, f_parameter f, f_type f).

(** Two URLs differ at most in their parameter values: blanking every
    value with the engine's own substitution gives the same string. *)
Definition same_injection_point (u1 u2 : string) : Prop :=
  re_sub_value EmptyString u1 = re_sub_value EmptyString u2.

(** The units of a SQLi scan in which an exception was raised. *)
Definition sqli_errored_units (transport : request -> option response)
    (urls sqli_payloads : list string) : nat :=
  length (List.filter
            (fun u => match fst (test_sqli_payload_body transport (fst u) (snd u)) with
                      | None => true
                      | Some _ => false
                      end)
            (sqli_units urls sqli_payloads)).


(** The findings among the results of completed futures, in order. *)
Fixpoint findings_of (completed : list (option finding)) : list finding :=
  match completed with
  | [] => []
  | Some f :: rest => f :: findings_of rest
  | None :: rest => findings_of rest
  end.

(** At most one finding for each deduplication key. *)
Definition at_most_one_per_key (out : list finding) : Prop :=
  List.NoDup (map finding_key out).

(** The request of [manual_cors_testing] for one [(url, origin)]. *)
Definition cors_request (url origin : string) : request :=
  mkRequest GET url [("Origin", origin)] [] 10.

(** ** Concrete targets used in the examples *)

Module Examples.

Definition page (body : string) : response := mkResponse body 0%float [].

(** A target that refuses every connection. *)
Definition unreachable : request -> option response := fun _ => None.

(** A target that answers every request with an empty page. *)
Definition blank : request -> option response := fun _ => Some (page EmptyString).

(** A target that echoes the five probed XSS payloads, unescaped, in
    every page. *)
Definition echoing : request -> option response :=
  fun _ => Some (page (String.concat EmptyString xss_payloads_first5)).

(** A target whose page is [ok] for the plain URL, shows a database error
    for the SQLi probes (the requests with the 15 s timeout) and echoes
    the XSS payloads for every other request. *)
Definition leaky : request -> option response :=
  fun r =>
    if Z.eqb (req_timeout r) 15 then
      Some (page "You have an error in your SQL syntax")
    else if String.eqb (req_url r) "http://t/?id=1" then Some (page "ok")
    else echoing r.

(** A target that sends the wildcard allow-origin header and no
    allow-credentials header. *)
Definition wildcard_cors : request -> option response :=
  fun _ => Some (mkResponse EmptyString 0%float
                            [("Access-Control-Allow-Origin", "*")]).

(** [urlparse] on the one URL the examples parse. *)
Definition urlparse_t : string -> option ParseResult :=
  fun url =>
    if String.eqb url "http://t/?id=1" then
      Some (mkParseResult "http" "t" "/" EmptyString "id=1" EmptyString)
    else None.

End Examples.

(** ** Further scans of the engine *)

(** The dictionaries appended to [lfi_vulnerabilities] (their ['type'] is
    always ['local_file_inclusion']). *)
Record lfi_finding := mkLfiFinding {
  l_url : string;
  l_payload : string;
  l_evidence : string;
  l_risk : risk
}.

(** The dictionaries appended to [header_vulnerabilities] (their ['type']
    is always ['header_injection']). *)
Record header_vulnerability := mkHeaderVulnerability {
  h_url : string;
  h_header : string;
  h_payload : string;
  h_risk : risk
}.

(** The dictionaries appended to [takeover_results] (their ['type'] is
    always ['subdomain_takeover']). *)
Record takeover_result := mkTakeoverResult {
  t_subdomain : string;
  t_service : string;
  t_signature : string;
  t_risk : risk
}.

(** Nested [for] loops run in order, each unit inside its own [try]: the
    results that are not [None] are appended to the list; the requests
    sent are kept beside it. *)
Definition run_in_order {U A : Type} (unit : U -> option A * list request)
    (us : list U) (acc : list A) : list A * list request :=
  fold_left (fun st u =>
               let r := unit u in
               (match fst r with
                | Some a => fst st ++ [a]
                | None => fst st
                end, snd st ++ snd r))
            us (acc, []).

Section MoreScans.

Variable transport : request -> option response.

(** *** [manual_lfi_testing] *)

Definition lfi_indicators : list string :=
  ["root:x:"; "daemon:"; "bin:"; "sys:"; "adm:"; "[boot loader]"; "user.dat"].

Definition lfi_keywords : list string :=
  ["file"; "page"; "include"; "path"; "doc"].

(** The URLs [manual_lfi_testing] keeps: an [=] and one of the keywords in
    the lower-cased URL. *)
Definition lfi_urls (urls : list string) : list string :=
  List.filter (fun url => chr_in "=" url
                          && existsb (fun param => str_in param (lower url)) lfi_keywords)
              urls.

Definition test_lfi_payload_body (url payload : string) : M (option lfi_finding) :=
  let test_url := inject url payload in
  response <- requests_get transport test_url 10 ;;
  match List.find (fun indicator => str_in indicator (text response)) lfi_indicators with
  | Some indicator => ret (Some (mkLfiFinding test_url payload indicator High))
  | None => ret None
  end.

Definition test_lfi_payload (url payload : string)
  : option lfi_finding * list request :=
  try_except (test_lfi_payload_body url payload) None.

(** The futures in submission order: the first 30 kept URLs, each with
    every payload of the catalogue. *)
Definition lfi_units (urls lfi_payloads : list string) : list (string * string) :=
  flat_map (fun url => map (fun payload => (url, payload)) lfi_payloads)
           (firstn 30 (lfi_urls urls)).

Definition lfi_futures (urls lfi_payloads : list string)
  : list (option lfi_finding * list request) :=
  map (fun u => test_lfi_payload (fst u) (snd u)) (lfi_units urls lfi_payloads).

Definition lfi_requests (urls lfi_payloads : list string) : list request :=
  concat (map snd (lfi_futures urls lfi_payloads)).

(** *** [manual_header_injection_testing] *)

Definition test_headers : list (string * string) :=
  [ ("X-Forwarded-For", "evil.com");
    ("X-Forwarded-Host", "evil.com");
    ("X-Originating-IP", "127.0.0.1");
    ("X-Remote-IP", "127.0.0.1");
    ("X-Remote-Addr", "127.0.0.1");
    ("X-Real-IP", "evil.com");
    ("Host", "evil.com") ].

Definition header_request (url header value : string) : request :=
  mkRequest GET url [(header, value)] [] 10.

Definition header_probe (url header value : string) : M (option header_vulnerability) :=
  response <- requests_get_headers transport url [(header, value)] 10 ;;
  if str_in value (text response) then
    ret (Some (mkHeaderVulnerability url header value Medium))
  else ret None.

Definition header_unit (u : string * (string * string))
  : option header_vulnerability * list request :=
  try_except (header_probe (fst u) (fst (snd u)) (snd (snd u))) None.

Definition header_units (live_subdomains : list string)
  : list (string * (string * string)) :=
  flat_map (fun url => map (fun hv => (url, hv)) test_headers)
           (firstn 5 live_subdomains).

(** The list stored in [self.results['header_vulnerabilities']], with the
    requests sent. *)
Definition manual_header_injection_testing (live_subdomains : list string)
  : list header_vulnerability * list request :=
  run_in_order header_unit (header_units live_subdomains) [].

(** *** The manual part of [subdomain_takeover_check] *)

Definition takeover_signatures : list (string * string) :=
  [ ("github.io", "There isn't a GitHub Pages site here.");
    ("herokuapp.com", "No such app");
    ("wordpress.com", "Do you want to register");
    ("aws.amazon.com", "NoSuchBucket");
    ("cloudfront.net", "Bad Request");
    ("s3.amazonaws.com", "NoSuchBucket") ].

Definition takeover_request (subdomain : string) : request :=
  mkRequest GET (String.append "http://" subdomain) [] [] 10.

Definition takeover_probe (subdomain service signature : string)
  : M (option takeover_result) :=
  response <- requests_get transport (String.append "http://" subdomain) 10 ;;
  if str_in signature (text response) then
    ret (Some (mkTakeoverResult subdomain service signature Critical))
  else ret None.

(** [if service in subdomain: try: ... except: pass]. *)
Definition takeover_unit (u : string * (string * string))
  : option takeover_result * list request :=
  if str_in (fst (snd u)) (fst u) then
    try_except (takeover_probe (fst u) (fst (snd u)) (snd (snd u))) None
  else (None, []).

Definition takeover_units (subdomains : list string)
  : list (string * (string * string)) :=
  flat_map (fun subdomain => map (fun ss => (subdomain, ss)) takeover_signatures)
           subdomains.

(** The list stored in [self.results['subdomain_takeover']], with the
    requests sent. *)
Definition manual_takeover_detection (subdomains : list string)
  : list takeover_result * list request :=
  run_in_order takeover_unit (takeover_units subdomains) [].

End MoreScans.

(** ** The web interface: [calculate_progress] and [validate_domain] *)

Definition phases : list string :=
  [ "subdomain_enum"; "live_filtering"; "url_collection"; "sensitive_files";
    "vulnerability_scan"; "completed" ].

(** [l.index(x)]; [None] when it raises [ValueError]. *)
Fixpoint list_index (x : string) (l : list string) : option nat :=
  match l with
  | [] => None
  | y :: l' => if String.eqb y x then Some 0%nat
               else option_map S (list_index x l')
  end.

(** [calculate_progress(results)], given [results.get('status')] ([None]
    when the key is missing); the result is [None] should [index] raise. *)
Definition calculate_progress (status : option string) : option Z :=
  let current_phase := match status with
                       | Some st => st
                       | None => "initialized"
                       end in
  if existsb (String.eqb current_phase) phases then
    match list_index current_phase phases with
    | Some i => Some ((Z.of_nat i + 1) * 20)%Z
    | None => None
    end
  else if String.eqb current_phase "completed" then Some 100%Z
  else Some 10%Z.

(** [s.replace(old, new)] for a non-empty [old]: the occurrences of [old]
    are replaced from left to right, without overlap. [skip] counts the
    characters of a matched occurrence still to be dropped. *)
Fixpoint replace_from (old new : string) (skip : nat) (s : string) : string :=
  match s with
  | EmptyString => EmptyString
  | String c s' =>
      match skip with
      | S k => replace_from old new k s'
      | O =>
          if startswith old (String c s') then
            String.append new (replace_from old new (String.length old - 1) s')
          else String c (replace_from old new 0 s')
      end
  end.

Definition str_replace (old new s : string) : string := replace_from old new 0 s.

(** [domain.replace('http://', '').replace('https://', '')], as in
    [AdvancedBugBountyTool.__init__] and in [validate_domain]. *)
Definition strip_scheme (domain : string) : string :=
  str_replace "https://" EmptyString (str_replace "http://" EmptyString domain).

(** [self.target_domain] as [__init__] sets it. *)
Definition target_domain (domain : string) : string := strip_scheme domain.

(** Regular expressions without groups to capture, matched by
    derivatives. *)
Module Re.

Inductive re :=
  | Void
  | Eps
  | Class (p : ascii -> bool)
  | Cat (a b : re)
  | Alt (a b : re)
  | Star (a : re).

(** [a?] *)
Definition Opt (a : re) : re := Alt Eps a.

(** [a+] *)
Definition Plus (a : re) : re := Cat a (Star a).

(** [a{0,n}] *)
Fixpoint UpTo (n : nat) (a : re) : re :=
  match n with
  | O => Eps
  | S k => Opt (Cat a (UpTo k a))
  end.

(** [a{2,}] *)
Definition AtLeast2 (a : re) : re := Cat a (Cat a (Star a)).

Fixpoint nullable (r : re) : bool :=
  match r with
  | Void => false
  | Eps => true
  | Class _ => false
  | Cat a b => nullable a && nullable b
  | Alt a b => nullable a || nullable b
  | Star _ => true
  end.

Fixpoint deriv (c : ascii) (r : re) : re :=
  match r with
  | Void => Void
  | Eps => Void
  | Class p => if p c then Eps else Void
  | Cat a b => Alt (Cat (deriv c a) b) (if nullable a then deriv c b else Void)
  | Alt a b => Alt (deriv c a) (deriv c b)
  | Star a => Cat (deriv c a) (Star a)
  end.

(** The whole of [s] is in the language of [r]. *)
Fixpoint matches (r : re) (s : string) : bool :=
  match s with
  | EmptyString => nullable r
  | String c s' => matches (deriv c r) s'
  end.

(** [s] without a final line feed, when it has one. *)
Fixpoint chomp (s : string) : option string :=
  match s with
  | EmptyString => None
  | String c EmptyString => if Ascii.eqb c (ascii_of_nat 10) then Some EmptyString else None
  | String c s' => option_map (String c) (chomp s')
  end.

(** [re.match('^' + r + '$', s)] as a truth value: the dollar matches at
    the end of the string and just before a line feed that ends it. *)
Definition match_anchored (r : re) (s : string) : bool :=
  matches r s ||
  match chomp s with
  | Some s' => matches r s'
  | None => false
  end.

(** The characters some class of [r] accepts. *)
Fixpoint alphabet (r : re) (c : ascii) : bool :=
  match r with
  | Void | Eps => false
  | Class p => p c
  | Cat a b | Alt a b => alphabet a c || alphabet b c
  | Star a => alphabet a c
  end.

End Re.

Definition in_range (lo hi : N) (c : ascii) : bool :=
  ((lo <=? N_of_ascii c) && (N_of_ascii c <=? hi))%N.

(** [[a-zA-Z]] *)
Definition alpha (c : ascii) : bool := in_range 97 122 c || in_range 65 90 c.

(** [[a-zA-Z0-9]] *)
Definition alnum (c : ascii) : bool := alpha c || in_range 48 57 c.

(** [[a-zA-Z0-9-]] *)
Definition alnum_hyphen (c : ascii) : bool := alnum c || Ascii.eqb c "-".

(** The dot, escaped in the pattern. *)
Definition dot (c : ascii) : bool := Ascii.eqb c ".".

(** One label: an alphanumeric, then optionally up to 61 alphanumerics or
    hyphens and a closing alphanumeric. *)
Definition label : Re.re :=
  Re.Cat (Re.Class alnum)
         (Re.Opt (Re.Cat (Re.UpTo 61 (Re.Class alnum_hyphen)) (Re.Class alnum))).

(** [domain_pattern] between its anchors: one or more labels, each
    followed by a dot, then two or more letters. *)
Definition domain_pattern : Re.re :=
  Re.Cat (Re.Plus (Re.Cat label (Re.Class dot))) (Re.AtLeast2 (Re.Class alpha)).

(** [validate_domain(domain)] as a truth value. *)
Definition validate_domain (domain : string) : bool :=
  Re.match_anchored domain_pattern (strip_scheme domain).

(** The characters of a host name: letters, digits, hyphen and dot. *)
Definition domain_char (c : ascii) : bool := alnum_hyphen c || dot c.

(** Every character of [s] satisfies [p]. *)
Fixpoint all_chars (p : ascii -> bool) (s : string) : bool :=
  match s with
  | EmptyString => true
  | String c s' => p c && all_chars p s'
  end.

(** The results that are not [None], in order. *)
Fixpoint somes {A : Type} (l : list (option A)) : list A :=
  match l with
  | [] => []
  | Some a :: rest => a :: somes rest
  | None :: rest => somes rest
  end.

(** The one request of an LFI unit. *)
Definition lfi_request (url payload : string) : request :=
  mkRequest GET (inject url payload) [] [] 10.

(** What [quote] may emit: an unreserved character, the slash, or the
    percent sign. *)
Definition quoted_char (c : ascii) : bool := quote_safe c || Ascii.eqb c "%".

Definition line_feed : string := String (ascii_of_nat 10) EmptyString.

(** Targets used in the examples of the further scans. *)
Module MoreExamples.

(** A target whose every page shows a passwd file. *)
Definition passwd_page : request -> option response :=
  fun _ => Some (mkResponse "bin:x:2:2 root:x:0:0:root" 0%float []).

(** A target whose every page mentions [evil.com], whatever is sent. *)
Definition mentions_evil : request -> option response :=
  fun _ => Some (mkResponse "contact: admin@evil.com" 0%float []).

End MoreExamples.

(** ** Vocabulary of the boundary cases *)

(** The HTML-escaped form of a string as [html.escape] gives it: the
    ampersand first, then [<], [>], the double quote and the single
    quote. *)
Definition html_escape (s : string) : string :=
  replace_chr "'" "&#x27;"
    (replace_chr (ascii_of_nat 34) "&quot;"
       (replace_chr ">" "&gt;"
          (replace_chr "<" "&lt;" (replace_chr "&" "&amp;" s)))).

(** [timedelta.total_seconds()] of an elapsed time of [microseconds]
    (below 2^53): the quotient by 10^6, rounded to binary64. *)
Definition total_seconds (microseconds : Z) : float :=
  PrimFloat.div (PrimFloat.of_uint63 (Uint63.of_Z microseconds)) 1000000%float.

Module Boundary.

(** The second payload of the XSS catalogue. *)
Definition quoted_script : string :=
  String.concat "" [dq; "><script>alert(1)</script>"].

(** A target whose pages hold the HTML-escaped form of that payload and,
    after it, the payload itself. *)
Definition half_escaping : request -> option response :=
  fun _ => Some (mkResponse
                   (String.concat "" [html_escape quoted_script; " "; quoted_script])
                   0%float []).

(** A target that answers the plain request after 5023 microseconds and
    the SQLi probes (the requests with the 15 s timeout) after 5005023
    microseconds, five seconds more, with empty pages. *)
Definition five_seconds_later : request -> option response :=
  fun r =>
    Some (mkResponse EmptyString
            (if Z.eqb (req_timeout r) 15 then total_seconds 5005023
             else total_seconds 5023)
            []).

(** Twenty parameterised URLs of one host. *)
Definition twenty_urls : list string :=
  [ "http://t/?a=1"; "http://t/?b=1"; "http://t/?c=1"; "http://t/?d=1";
    "http://t/?e=1"; "http://t/?f=1"; "http://t/?g=1"; "http://t/?h=1";
    "http://t/?i=1"; "http://t/?j=1"; "http://t/?k=1"; "http://t/?l=1";
    "http://t/?m=1"; "http://t/?n=1"; "http://t/?o=1"; "http://t/?p=1";
    "http://t/?q=1"; "http://t/?r=1"; "http://t/?s=1"; "http://t/?t=1" ].

(** A target that shows a database error for the SQLi probes of its [id]
    parameter and an empty page for everything else. *)
Definition id_leaks : request -> option response :=
  fun r =>
    if Z.eqb (req_timeout r) 15 && startswith "http://t/?id=" (req_url r) then
      Some (mkResponse "You have an error in your SQL syntax" 0%float [])
    else Some (mkResponse EmptyString 0%float []).

End Boundary.

(** * Properties *)

(** ** The request monad *)

Lemma fst_bind {A B} (m : M A) (k : A -> M B) :
  fst (bind m k) = match fst m with Some a => fst (k a) | None => None end.
Proof.
  destruct m as [[a|] tr]; simpl; [|reflexivity].
  destruct (k a); reflexivity.
Qed.

Lemma snd_bind {A B} (m : M A) (k : A -> M B) :
  snd (bind m k) = snd m ++ match fst m with Some a => snd (k a) | None => [] end.
Proof.
  destruct m as [[a|] tr]; simpl.
  - destruct (k a); reflexivity.
  - symmetry; apply app_nil_r.
Qed.

Lemma fst_try_except {A} (m : M A) (d : A) :
  fst (try_except m d) = match fst m with Some a => a | None => d end.
Proof. destruct m as [[a|] tr]; reflexivity. Qed.

Lemma snd_try_except {A} (m : M A) (d : A) :
  snd (try_except m d) = snd m.
Proof. destruct m as [[a|] tr]; reflexivity. Qed.

(** ** Strings *)

Lemma replace_chr_absent c new s :
  chr_in c s = false -> replace_chr c new s = s.
Proof.
  induction s as [|b s IH]; simpl; [reflexivity|].
  rewrite (Ascii.eqb_sym c b).
  destruct (Ascii.eqb b c); simpl; [discriminate|].
  intros H. rewrite IH; auto.
Qed.

Lemma escaped_form_plain payload :
  chr_in "<" payload = false -> chr_in ">" payload = false ->
  escaped_form payload = payload.
Proof.
  intros Hlt Hgt. unfold escaped_form.
  rewrite (replace_chr_absent "<" _ _ Hlt).
  apply replace_chr_absent, Hgt.
Qed.

Lemma reflection_check_true payload body :
  reflection_check payload body = true <->
  str_in payload body = true /\ str_in (escaped_form payload) body = false.
Proof.
  unfold reflection_check.
  rewrite andb_true_iff, negb_true_iff. tauto.
Qed.

Section XssProofs.

Variable transport : request -> option response.
Variable urlparse : string -> option ParseResult.

Lemma xss_post_loop_type base_url payload params0 todo f :
  fst (xss_post_loop transport base_url payload params0 todo) = Some (Some f) ->
  f_type f = post_xss.
Proof.
  induction todo as [|param rest IH]; cbn [xss_post_loop].
  - discriminate.
  - rewrite fst_bind. unfold requests_post, send. cbn [fst].
    destruct (transport _) as [resp|]; [|discriminate].
    destruct (str_in payload (text resp)); simpl.
    + intros [= <-]. reflexivity.
    + apply IH.
Qed.

Lemma xss_post_test_type url payload f :
  fst (xss_post_test transport urlparse url payload) = Some (Some f) ->
  f_type f = post_xss.
Proof.
  unfold xss_post_test. rewrite fst_bind. unfold or_raise. simpl.
  destruct (urlparse url) as [parsed_url|]; [|discriminate].
  destruct (negb _); [|discriminate].
  rewrite fst_bind.
  destruct (fst (parse_params _)) as [pairs|]; [|discriminate].
  apply xss_post_loop_type.
Qed.

(** The result of a unit, by cases on the GET response. *)
Lemma test_xss_payload_cases url payload :
  fst (test_xss_payload transport urlparse url payload) =
  if chr_in "=" url then
    match transport (xss_probe_request url payload) with
    | Some response =>
        if reflection_check payload (text response) then
          Some (mkFinding (inject url payload) None (Some payload) reflected_xss
                          (Some GET) None None None High)
        else match fst (xss_post_test transport urlparse url payload) with
             | Some r => r
             | None => None
             end
    | None => None
    end
  else match fst (xss_post_test transport urlparse url payload) with
       | Some r => r
       | None => None
       end.
Proof.
  unfold test_xss_payload, test_xss_payload_body.
  rewrite fst_try_except, fst_bind. unfold xss_get_test.
  destruct (chr_in "=" url); [|reflexivity].
  rewrite fst_bind. unfold requests_get, send, xss_probe_request. cbn [fst].
  destruct (transport _) as [response|]; [|reflexivity].
  destruct (reflection_check payload (text response)); reflexivity.
Qed.

Lemma reflected_xss_spec url payload :
  ((exists f, fst (test_xss_payload transport urlparse url payload) = Some f /\
              f_type f = reflected_xss) <->
   (chr_in "=" url = true /\
    exists response,
      transport (xss_probe_request url payload) = Some response /\
      str_in payload (text response) = true /\
      str_in (escaped_form payload) (text response) = false)) /\
  (forall f, fst (test_xss_payload transport urlparse url payload) = Some f ->
             f_type f = reflected_xss -> f_risk f = High).
Proof.
  rewrite test_xss_payload_cases.
  assert (Hpost : forall f,
    match fst (xss_post_test transport urlparse url payload) with
    | Some r => r | None => None end = Some f -> f_type f <> reflected_xss).
  { intros f H.
    destruct (fst (xss_post_test transport urlparse url payload)) as [r|] eqn:E;
      [|discriminate].
    subst r. rewrite (xss_post_test_type _ _ _ E). discriminate. }
  destruct (chr_in "=" url).
  - destruct (transport (xss_probe_request url payload)) as [response|].
    + destruct (reflection_check payload (text response)) eqn:Hc.
      * apply reflection_check_true in Hc. split.
        -- split; [intros _; split; eauto | intros _; eexists; split; reflexivity].
        -- intros f [= <-] _. reflexivity.
      * split.
        -- split.
           ++ intros (f & Hf & Ht). exfalso. exact (Hpost f Hf Ht).
           ++ intros (_ & r & [= <-] & H1 & H2).
              assert (reflection_check payload (text response) = true)
                by (apply reflection_check_true; auto).
              congruence.
        -- intros f Hf Ht. exfalso. exact (Hpost f Hf Ht).
    + split.
      * split; [intros (f & Hf & _); discriminate
               | intros (_ & r & Hr & _); discriminate].
      * intros f Hf; discriminate.
  - split.
    + split; [intros (f & Hf & Ht); exfalso; exact (Hpost f Hf Ht)
             | intros (H & _); discriminate].
    + intros f Hf Ht. exfalso. exact (Hpost f Hf Ht).
Qed.

(** C3 (as the code has it): [test_xss_payload] returns a finding of type
    [reflected_xss] exactly when the URL has a parameter, the mutated GET
    request is answered, the raw payload occurs in the response body and
    the payload with every [<] written [&lt;] and every [>] written [&gt;]
    (nothing else escaped) does not; such a finding has risk [High]; and a
    body that contains that form gives no finding of this type (the POST
    test of the unit may still return one of type [post_xss]). *)
Theorem reflected_xss_iff_raw_and_not_escaped url payload :
  ((exists f, fst (test_xss_payload transport urlparse url payload) = Some f /\
              f_type f = reflected_xss) <->
   (chr_in "=" url = true /\
    exists response,
      transport (xss_probe_request url payload) = Some response /\
      str_in payload (text response) = true /\
      str_in (escaped_form payload) (text response) = false)) /\
  (forall f, fst (test_xss_payload transport urlparse url payload) = Some f ->
             f_type f = reflected_xss -> f_risk f = High) /\
  (forall response f,
     transport (xss_probe_request url payload) = Some response ->
     str_in (escaped_form payload) (text response) = true ->
     fst (test_xss_payload transport urlparse url payload) = Some f ->
     f_type f <> reflected_xss).
Proof.
  destruct (reflected_xss_spec url payload) as [Hiff Hrisk].
  split; [exact Hiff|]. split; [exact Hrisk|].
  intros response f Hresp Hesc Hf Hty.
  destruct (proj1 Hiff) as (_ & r & Hr & _ & Hno); [eauto|].
  rewrite Hresp in Hr. injection Hr as <-. congruence.
Qed.

(** C10: a payload with neither [<] nor [>] is its own escaped form, so
    the GET reflection test is never satisfied and no unit returns a
    [reflected_xss] finding for it, whatever the responses. *)
Theorem plain_payload_never_reflected url payload :
  chr_in "<" payload = false -> chr_in ">" payload = false ->
  escaped_form payload = payload /\
  (forall body, reflection_check payload body = false) /\
  (forall f, fst (test_xss_payload transport urlparse url payload) = Some f ->
             f_type f <> reflected_xss).
Proof.
  intros Hlt Hgt.
  pose proof (escaped_form_plain payload Hlt Hgt) as He.
  split; [exact He|]. split.
  - intros body. unfold reflection_check. rewrite He.
    destruct (str_in payload body); reflexivity.
  - intros f Hf Ht.
    destruct (reflected_xss_spec url payload) as [[H _] _].
    destruct H as (_ & response & _ & H1 & H2); [eauto|].
    rewrite He in H2. congruence.
Qed.

End XssProofs.

Section SqliProofs.

Variable transport : request -> option response.

(** The result and the requests of a unit, by cases on the two responses. *)
Lemma test_sqli_payload_cases url payload :
  test_sqli_payload transport url payload =
  match transport (baseline_request url) with
  | None => (None, [baseline_request url])
  | Some original_response =>
      match transport (sqli_probe_request url payload) with
      | None => (None, [baseline_request url; sqli_probe_request url payload])
      | Some test_response =>
          (match error_signature_check (text test_response)
                                       (text original_response) with
           | Some error =>
               Some (mkFinding (inject url payload) None (Some payload)
                               error_based_sqli None (Some error) None None High)
           | None =>
               timing_classifier (inject url payload) payload
                 (elapsed_seconds original_response)
                 (elapsed_seconds test_response)
           end,
           [baseline_request url; sqli_probe_request url payload])
      end
  end.
Proof.
  unfold test_sqli_payload, test_sqli_payload_body, try_except, bind,
    requests_get, send, baseline_request, sqli_probe_request.
  destruct (transport (mkRequest GET url [] [] 10)) as [o|]; [|reflexivity].
  destruct (transport (mkRequest GET (inject url payload) [] [] 15)) as [t|];
    [|reflexivity].
  destruct (error_signature_check (text t) (text o)); reflexivity.
Qed.

Lemma timing_classifier_type test_url payload o t f :
  timing_classifier test_url payload o t = Some f ->
  f_type f = time_based_sqli /\ f_risk f = High.
Proof.
  unfold timing_classifier. destruct (timing_check o t); [|discriminate].
  intros [= <-]. split; reflexivity.
Qed.

Lemma error_signature_check_some t o error :
  error_signature_check t o = Some error ->
  In error sql_errors /\
  str_in error (lower t) = true /\ str_in error (lower o) = false.
Proof.
  unfold error_signature_check. intros H.
  apply find_some in H. destruct H as [Hin H].
  apply andb_true_iff in H. destruct H as [H1 H2].
  apply negb_true_iff in H2. auto.
Qed.

Lemma error_signature_check_none t o :
  error_signature_check t o = None ->
  forall error, In error sql_errors ->
    str_in error (lower t) = true -> str_in error (lower o) = true.
Proof.
  unfold error_signature_check. intros H error Hin Ht.
  pose proof (find_none _ _ H error Hin) as Hf. cbv beta in Hf.
  rewrite Ht in Hf. simpl in Hf.
  destruct (str_in error (lower o)); [reflexivity|discriminate].
Qed.

Lemma error_based_sqli_spec url payload :
  (exists f, fst (test_sqli_payload transport url payload) = Some f /\
             f_type f = error_based_sqli) <->
  (exists original_response test_response error,
     transport (baseline_request url) = Some original_response /\
     transport (sqli_probe_request url payload) = Some test_response /\
     In error sql_errors /\
     str_in error (lower (text test_response)) = true /\
     str_in error (lower (text original_response)) = false).
Proof.
  rewrite test_sqli_payload_cases.
  destruct (transport (baseline_request url)) as [o|].
  2:{ split; [intros (f & H & _); discriminate
             | intros (o & t & e & H & _); discriminate]. }
  destruct (transport (sqli_probe_request url payload)) as [t|].
  2:{ split; [intros (f & H & _); discriminate
             | intros (o' & t & e & _ & H & _); discriminate]. }
  cbn [fst].
  destruct (error_signature_check (text t) (text o)) as [error|] eqn:E.
  - apply error_signature_check_some in E. destruct E as (Hin & H1 & H2). split.
    + intros _. exists o, t, error. auto.
    + intros _. eexists. split; reflexivity.
  - split.
    + intros (f & Hf & Ht).
      apply timing_classifier_type in Hf. destruct Hf as [Hf _]. congruence.
    + intros (o' & t' & error & [= <-] & [= <-] & Hin & H1 & H2).
      pose proof (error_signature_check_none _ _ E error Hin H1). congruence.
Qed.

(** C5: [test_sqli_payload] returns an [error_based_sqli] finding exactly
    when both requests are answered and some signature of [sql_errors]
    occurs in the lower-cased mutated body and not in the lower-cased
    baseline body; the finding has risk [High]; and when every signature
    found in the mutated body is already in the baseline body, no such
    finding is returned. *)
Theorem error_signature_iff_new_in_mutated url payload :
  ((exists f, fst (test_sqli_payload transport url payload) = Some f /\
              f_type f = error_based_sqli) <->
   (exists original_response test_response error,
      transport (baseline_request url) = Some original_response /\
      transport (sqli_probe_request url payload) = Some test_response /\
      In error sql_errors /\
      str_in error (lower (text test_response)) = true /\
      str_in error (lower (text original_response)) = false)) /\
  (forall f, fst (test_sqli_payload transport url payload) = Some f ->
             f_risk f = High) /\
  (forall original_response test_response,
     transport (baseline_request url) = Some original_response ->
     transport (sqli_probe_request url payload) = Some test_response ->
     (forall error, In error sql_errors ->
        str_in error (lower (text test_response)) = true ->
        str_in error (lower (text original_response)) = true) ->
     forall f, fst (test_sqli_payload transport url payload) = Some f ->
               f_type f <> error_based_sqli).
Proof.
  split; [exact (error_based_sqli_spec url payload)|]. split.
  - rewrite test_sqli_payload_cases. intros f.
    destruct (transport (baseline_request url)) as [o|]; [|discriminate].
    destruct (transport (sqli_probe_request url payload)) as [t|]; [|discriminate].
    cbn [fst]. destruct (error_signature_check (text t) (text o)).
    + intros [= <-]. reflexivity.
    + intros H. apply timing_classifier_type in H. tauto.
  - intros o t Ho Ht Hall f Hf Hty.
    destruct (proj1 (error_based_sqli_spec url payload)) as
      (o' & t' & error & Ho' & Ht' & Hin & H1 & H2); [eauto|].
    rewrite Ho in Ho'. rewrite Ht in Ht'.
    injection Ho' as <-. injection Ht' as <-.
    rewrite (Hall error Hin H1) in H2. discriminate.
Qed.

Lemma time_based_sqli_spec url payload :
  (exists f, fst (test_sqli_payload transport url payload) = Some f /\
             f_type f = time_based_sqli) <->
  (exists original_response test_response,
     transport (baseline_request url) = Some original_response /\
     transport (sqli_probe_request url payload) = Some test_response /\
     error_signature_check (text test_response) (text original_response) = None /\
     PrimFloat.ltb (PrimFloat.add (elapsed_seconds original_response) 5%float)
                   (elapsed_seconds test_response) = true).
Proof.
  rewrite test_sqli_payload_cases.
  destruct (transport (baseline_request url)) as [o|].
  2:{ split; [intros (f & H & _); discriminate
             | intros (o & t & H & _); discriminate]. }
  destruct (transport (sqli_probe_request url payload)) as [t|].
  2:{ split; [intros (f & H & _); discriminate
             | intros (o' & t & _ & H & _); discriminate]. }
  cbn [fst].
  destruct (error_signature_check (text t) (text o)) as [error|] eqn:E.
  - split.
    + intros (f & [= <-] & Hty). discriminate.
    + intros (o' & t' & [= <-] & [= <-] & H & _). congruence.
  - unfold timing_classifier, timing_check.
    destruct (PrimFloat.ltb _ _) eqn:Hlt.
    + split.
      * intros _. exists o, t. auto.
      * intros _. eexists. split; reflexivity.
    + split.
      * intros (f & H & _). discriminate.
      * intros (o' & t' & [= <-] & [= <-] & _ & H). congruence.
Qed.

End SqliProofs.

(** C4 (as the code has it): the time-based block returns a finding
    exactly when, in binary64 arithmetic, the mutated elapsed time is
    greater than the baseline elapsed time plus 5; baseline 0.2 s with
    mutated 5.4 s gives a finding and mutated 0.9 s gives none; and a
    unit returns a [time_based_sqli] finding exactly when both requests
    are answered, the error-signature loop before it returned nothing and
    that comparison holds. *)
Theorem timing_finding_iff_delta_above_5 :
  (forall test_url payload original_time test_time,
     is_Some (timing_classifier test_url payload original_time test_time) <->
     PrimFloat.ltb (PrimFloat.add original_time 5%float) test_time = true) /\
  is_Some (timing_classifier "u" "p" 0.2%float 5.4%float) /\
  timing_classifier "u" "p" 0.2%float 0.9%float = None /\
  (forall transport url payload,
     (exists f, fst (test_sqli_payload transport url payload) = Some f /\
                f_type f = time_based_sqli) <->
     (exists original_response test_response,
        transport (baseline_request url) = Some original_response /\
        transport (sqli_probe_request url payload) = Some test_response /\
        error_signature_check (text test_response) (text original_response) = None /\
        PrimFloat.ltb (PrimFloat.add (elapsed_seconds original_response) 5%float)
                      (elapsed_seconds test_response) = true)).
Proof.
  split; [|split; [|split]].
  - intros test_url payload o t. unfold timing_classifier, timing_check.
    destruct (PrimFloat.ltb _ _).
    + split; [reflexivity | intros _; eexists; reflexivity].
    + split; [intros [f H]; discriminate | discriminate].
  - eexists. vm_compute. reflexivity.
  - vm_compute. reflexivity.
  - exact time_based_sqli_spec.
Qed.

(** ** Collecting the results of the pool *)

Lemma collect_findings_of completed acc :
  collect completed acc = acc ++ findings_of completed.
Proof.
  unfold collect. revert acc.
  induction completed as [|[f|] rest IH]; intros acc; cbn [fold_left findings_of].
  - symmetry. apply app_nil_r.
  - rewrite IH, <- app_assoc. reflexivity.
  - apply IH.
Qed.

Lemma findings_of_Permutation c1 c2 :
  Permutation c1 c2 -> Permutation (findings_of c1) (findings_of c2).
Proof.
  induction 1 as [|[x|] l l' _ IH|[x|] [y|] l|l l' l'' _ IH1 _ IH2];
    cbn [findings_of].
  - apply perm_nil.
  - apply perm_skip, IH.
  - exact IH.
  - apply perm_swap.
  - apply Permutation_refl.
  - apply Permutation_refl.
  - apply Permutation_refl.
  - exact (perm_trans IH1 IH2).
Qed.

Lemma findings_of_In f completed :
  In f (findings_of completed) <-> In (Some f) completed.
Proof.
  induction completed as [|[g|] rest IH]; cbn [findings_of In].
  - tauto.
  - rewrite IH. split; intros [H|H]; auto; [left; congruence | left; congruence].
  - rewrite IH. split; [auto | intros [H|H]; [discriminate | exact H]].
Qed.

(** What a run of the pool leaves in the list, for any futures. *)
Lemma pool_collects (futures : list (option finding * list request)) acc out :
  (exists completed,
     Permutation (map fst futures) completed /\ out = collect completed acc) ->
  exists added,
    out = acc ++ added /\
    Permutation added (findings_of (map fst futures)) /\
    length added = length (findings_of (map fst futures)).
Proof.
  intros (completed & Hp & ->).
  exists (findings_of completed). rewrite collect_findings_of.
  split; [reflexivity|].
  assert (Permutation (findings_of completed) (findings_of (map fst futures)))
    by (apply findings_of_Permutation, Permutation_sym, Hp).
  split; [assumption | apply Permutation_length; assumption].
Qed.

Lemma pool_same_findings (futures : list (option finding * list request))
    acc out1 out2 :
  (exists completed,
     Permutation (map fst futures) completed /\ out1 = collect completed acc) ->
  (exists completed,
     Permutation (map fst futures) completed /\ out2 = collect completed acc) ->
  Permutation out1 out2.
Proof.
  intros (c1 & Hp1 & ->) (c2 & Hp2 & ->).
  rewrite !collect_findings_of. apply Permutation_app_head.
  apply findings_of_Permutation.
  exact (perm_trans (Permutation_sym Hp1) Hp2).
Qed.

(** ** Baseline requests of a SQLi scan *)










(** ** Orderings of the corpus *)

Lemma filter_Permutation {A} (f : A -> bool) l1 l2 :
  Permutation l1 l2 -> Permutation (List.filter f l1) (List.filter f l2).
Proof.
  induction 1 as [|x l l' _ IH|x y l|l l' l'' _ IH1 _ IH2]; cbn [List.filter].
  - apply perm_nil.
  - destruct (f x); [apply perm_skip|]; exact IH.
  - destruct (f x), (f y); try apply Permutation_refl. apply perm_swap.
  - exact (perm_trans IH1 IH2).
Qed.

(** A corpus that fits the slice is probed whole, so its order does not
    change which units there are. *)
Lemma units_Permutation n m urls1 urls2 payloads :
  Permutation urls1 urls2 ->
  (length (urls_with_params urls1) <= n)%nat ->
  Permutation (units n m urls1 payloads) (units n m urls2 payloads).
Proof.
  intros Hp Hlen. unfold units.
  assert (Hf : Permutation (urls_with_params urls1) (urls_with_params urls2))
    by (apply filter_Permutation, Hp).
  assert (E1 : firstn n (urls_with_params urls1) = urls_with_params urls1)
    by (apply firstn_all2; exact Hlen).
  assert (E2 : firstn n (urls_with_params urls2) = urls_with_params urls2)
    by (apply firstn_all2; rewrite <- (Permutation_length Hf); exact Hlen).
  rewrite E1, E2. apply Permutation_flat_map, Hf.
Qed.

Lemma collect_same_findings r1 r2 c1 c2 acc :
  Permutation r1 c1 -> Permutation r2 c2 -> Permutation r1 r2 ->
  Permutation (collect c1 acc) (collect c2 acc).
Proof.
  intros H1 H2 H12. rewrite !collect_findings_of. apply Permutation_app_head.
  apply findings_of_Permutation.
  exact (perm_trans (Permutation_sym H1) (perm_trans H12 H2)).
Qed.

(** ** Aggregation *)

Section ScanProofs.

Variable transport : request -> option response.
Variable urlparse : string -> option ParseResult.

(** C2 (as the code has it): the scans append every finding a unit returns
    and never drop or merge one: the list after a scan is the list before
    it followed by exactly the findings of the units, in the order the
    units completed, whatever their url, parameter, type or risk. *)
Theorem every_finding_survives urls xss_payloads sqli_payloads
    xss_vulnerabilities sqli_vulnerabilities xss_out sqli_out :
  manual_xss_testing transport urlparse urls xss_payloads xss_vulnerabilities xss_out ->
  manual_sqli_testing transport urls sqli_payloads sqli_vulnerabilities sqli_out ->
  (exists added,
     xss_out = xss_vulnerabilities ++ added /\
     Permutation added
       (findings_of (map fst (xss_futures transport urlparse urls xss_payloads))) /\
     length added =
       length (findings_of (map fst (xss_futures transport urlparse urls xss_payloads)))) /\
  (exists added,
     sqli_out = sqli_vulnerabilities ++ added /\
     Permutation added
       (findings_of (map fst (sqli_futures transport urls sqli_payloads))) /\
     length added =
       length (findings_of (map fst (sqli_futures transport urls sqli_payloads)))).
Proof.
  intros Hx Hs. split; [exact (pool_collects _ _ _ Hx) | exact (pool_collects _ _ _ Hs)].
Qed.

(** C9 (as the code has it): two runs of the scans with the same payloads
    against the same deterministic transport, starting from the same
    lists, on two orderings of one corpus, leave the same findings,
    whatever the order in which the futures complete, provided the two
    orderings are the same list or the corpus fits the slice of the scan:
    at most 50 parameterised URLs for the XSS scan, at most 20 for the
    SQLi scan. *)
Theorem same_finding_set_within_limits urls1 urls2 xss_payloads sqli_payloads
    xss_vulnerabilities sqli_vulnerabilities xss_out1 xss_out2 sqli_out1 sqli_out2 :
  Permutation urls1 urls2 ->
  manual_xss_testing transport urlparse urls1 xss_payloads xss_vulnerabilities xss_out1 ->
  manual_xss_testing transport urlparse urls2 xss_payloads xss_vulnerabilities xss_out2 ->
  manual_sqli_testing transport urls1 sqli_payloads sqli_vulnerabilities sqli_out1 ->
  manual_sqli_testing transport urls2 sqli_payloads sqli_vulnerabilities sqli_out2 ->
  (urls1 = urls2 \/ (length (urls_with_params urls1) <= 50)%nat ->
   Permutation xss_out1 xss_out2) /\
  (urls1 = urls2 \/ (length (urls_with_params urls1) <= 20)%nat ->
   Permutation sqli_out1 sqli_out2).
Proof.
  intros Hp Hx1 Hx2 Hs1 Hs2. split.
  - intros [<-|Hlen]; [exact (pool_same_findings _ _ _ _ Hx1 Hx2)|].
    destruct Hx1 as (c1 & Hc1 & ->). destruct Hx2 as (c2 & Hc2 & ->).
    apply (collect_same_findings _ _ _ _ _ Hc1 Hc2).
    unfold xss_futures, xss_units. rewrite !map_map.
    apply Permutation_map, units_Permutation; assumption.
  - intros [<-|Hlen]; [exact (pool_same_findings _ _ _ _ Hs1 Hs2)|].
    destruct Hs1 as (c1 & Hc1 & ->). destruct Hs2 as (c2 & Hc2 & ->).
    apply (collect_same_findings _ _ _ _ _ Hc1 Hc2).
    unfold sqli_futures, sqli_units. rewrite !map_map.
    apply Permutation_map, units_Permutation; assumption.
Qed.

Lemma pool_reports (futures : list (option finding * list request)) acc out :
  (exists completed,
     Permutation (map fst futures) completed /\ out = collect completed acc) ->
  (forall f, In f acc -> In f out) /\
  (forall f, In (Some f) (map fst futures) -> In f out).
Proof.
  intros (completed & Hp & ->). rewrite collect_findings_of. split.
  - intros f Hf. apply in_or_app. left. exact Hf.
  - intros f Hf. apply in_or_app. right. apply findings_of_In.
    exact (Permutation_in _ Hp Hf).
Qed.

(** C7 (as the code has it): a unit in which a request fails, or anything
    else raises, returns no finding; the scan still completes, keeps the
    findings it started with and reports the finding of every other unit.
    Nothing else is kept of the failure. *)
Theorem errors_yield_no_finding_and_scan_completes :
  (forall url payload,
     fst (test_xss_payload_body transport urlparse url payload) = None ->
     fst (test_xss_payload transport urlparse url payload) = None) /\
  (forall url payload,
     fst (test_sqli_payload_body transport url payload) = None ->
     fst (test_sqli_payload transport url payload) = None) /\
  (forall url payload,
     chr_in "=" url = true ->
     transport (xss_probe_request url payload) = None ->
     fst (test_xss_payload transport urlparse url payload) = None) /\
  (forall url payload,
     transport (baseline_request url) = None \/
     transport (sqli_probe_request url payload) = None ->
     fst (test_sqli_payload transport url payload) = None) /\
  (forall urls xss_payloads acc,
     (exists out, manual_xss_testing transport urlparse urls xss_payloads acc out) /\
     (forall out, manual_xss_testing transport urlparse urls xss_payloads acc out ->
        (forall f, In f acc -> In f out) /\
        (forall url payload f,
           In (url, payload) (xss_units urls xss_payloads) ->
           fst (test_xss_payload transport urlparse url payload) = Some f ->
           In f out))) /\
  (forall urls sqli_payloads acc,
     (exists out, manual_sqli_testing transport urls sqli_payloads acc out) /\
     (forall out, manual_sqli_testing transport urls sqli_payloads acc out ->
        (forall f, In f acc -> In f out) /\
        (forall url payload f,
           In (url, payload) (sqli_units urls sqli_payloads) ->
           fst (test_sqli_payload transport url payload) = Some f ->
           In f out))).
Proof.
  split; [|split; [|split; [|split; [|split]]]].
  - intros url payload H. unfold test_xss_payload.
    rewrite fst_try_except, H. reflexivity.
  - intros url payload H. unfold test_sqli_payload.
    rewrite fst_try_except, H. reflexivity.
  - intros url payload Heq Hreq.
    rewrite test_xss_payload_cases, Heq, Hreq. reflexivity.
  - intros url payload [H|H]; rewrite test_sqli_payload_cases.
    + rewrite H. reflexivity.
    + destruct (transport (baseline_request url)); [rewrite H|]; reflexivity.
  - intros urls xss_payloads acc. split.
    + eexists. eexists. split; [apply Permutation_refl | reflexivity].
    + intros out H. split; [apply (pool_reports _ _ _ H)|].
      intros url payload f Hin Hf.
      apply (proj2 (pool_reports _ _ _ H)).
      rewrite <- Hf. unfold xss_futures. rewrite map_map.
      apply (in_map (fun u => fst (test_xss_payload transport urlparse (fst u) (snd u)))
                    _ (url, payload) Hin).
  - intros urls sqli_payloads acc. split.
    + eexists. eexists. split; [apply Permutation_refl | reflexivity].
    + intros out H. split; [apply (pool_reports _ _ _ H)|].
      intros url payload f Hin Hf.
      apply (proj2 (pool_reports _ _ _ H)).
      rewrite <- Hf. unfold sqli_futures. rewrite map_map.
      apply (in_map (fun u => fst (test_sqli_payload transport (fst u) (snd u)))
                    _ (url, payload) Hin).
Qed.

End ScanProofs.

(** C2, counterexample: two URLs that differ only in a parameter value,
    probed against a target that echoes the payloads, leave ten findings;
    the first and the sixth are the same finding, so two findings with one
    (url, parameter, type) key survive. *)
Lemma duplicate_findings_survive :
  manual_xss_testing Examples.echoing Examples.urlparse_t
    ["http://t/?q=1"; "http://t/?q=2"] xss_payloads_first5 []
    (manual_xss_testing_in_order Examples.echoing Examples.urlparse_t
       ["http://t/?q=1"; "http://t/?q=2"] xss_payloads_first5 []) /\
  nth_error (manual_xss_testing_in_order Examples.echoing Examples.urlparse_t
               ["http://t/?q=1"; "http://t/?q=2"] xss_payloads_first5 []) 0 =
    Some (mkFinding "http://t/?q=%3Cscript%3Ealert%281%29%3C/script%3E" None
                    (Some "<script>alert(1)</script>") reflected_xss (Some GET)
                    None None None High) /\
  nth_error (manual_xss_testing_in_order Examples.echoing Examples.urlparse_t
               ["http://t/?q=1"; "http://t/?q=2"] xss_payloads_first5 []) 5 =
    Some (mkFinding "http://t/?q=%3Cscript%3Ealert%281%29%3C/script%3E" None
                    (Some "<script>alert(1)</script>") reflected_xss (Some GET)
                    None None None High) /\
  ~ at_most_one_per_key
      (manual_xss_testing_in_order Examples.echoing Examples.urlparse_t
         ["http://t/?q=1"; "http://t/?q=2"] xss_payloads_first5 []).
Proof.
  split; [|split; [|split]].
  - eexists. split; [apply Permutation_refl | reflexivity].
  - vm_compute. reflexivity.
  - vm_compute. reflexivity.
  - unfold at_most_one_per_key. intros H.
    pose proof (proj1 (List.NoDup_nth_error _) H 0%nat 5%nat) as H'.
    assert (0 = 5)%nat as E; [|discriminate E].
    apply H'; vm_compute; [lia | reflexivity].
Qed.

(** C2, an instance: against the leaky target both scans keep every
    finding of their units. *)
Lemma every_finding_survives_witness :
  (exists added,
     manual_xss_testing_in_order Examples.leaky Examples.urlparse_t
       ["http://t/?id=1"] xss_payloads_first5 [] = [] ++ added /\
     Permutation added
       (findings_of (map fst (xss_futures Examples.leaky Examples.urlparse_t
                                ["http://t/?id=1"] xss_payloads_first5))) /\
     length added =
       length (findings_of (map fst (xss_futures Examples.leaky Examples.urlparse_t
                                       ["http://t/?id=1"] xss_payloads_first5)))) /\
  (exists added,
     manual_sqli_testing_in_order Examples.leaky
       ["http://t/?id=1"] sqli_payloads_first4 [] = [] ++ added /\
     Permutation added
       (findings_of (map fst (sqli_futures Examples.leaky
                                ["http://t/?id=1"] sqli_payloads_first4))) /\
     length added =
       length (findings_of (map fst (sqli_futures Examples.leaky
                                       ["http://t/?id=1"] sqli_payloads_first4)))).
Proof.
  apply (every_finding_survives Examples.leaky Examples.urlparse_t
           ["http://t/?id=1"] xss_payloads_first5 sqli_payloads_first4 [] []);
    (eexists; split; [apply Permutation_refl | reflexivity]).
Defined.

(** C9, an instance: against the leaky target, a run on two URLs with the
    futures completing in submission order and a run on the same URLs in
    the other order with the futures completing in reverse leave the same
    findings. *)
Lemma same_finding_set_within_limits_witness :
  Permutation
    (manual_xss_testing_in_order Examples.leaky Examples.urlparse_t
       ["http://t/?id=1"; "http://t/?id=2"] xss_payloads_first5 [])
    (collect (rev (map fst (xss_futures Examples.leaky Examples.urlparse_t
                              ["http://t/?id=2"; "http://t/?id=1"]
                              xss_payloads_first5))) []) /\
  Permutation
    (manual_sqli_testing_in_order Examples.leaky
       ["http://t/?id=1"; "http://t/?id=2"] sqli_payloads_first4 [])
    (collect (rev (map fst (sqli_futures Examples.leaky
                              ["http://t/?id=2"; "http://t/?id=1"]
                              sqli_payloads_first4))) []).
Proof.
  destruct (same_finding_set_within_limits Examples.leaky Examples.urlparse_t
              ["http://t/?id=1"; "http://t/?id=2"] ["http://t/?id=2"; "http://t/?id=1"]
              xss_payloads_first5 sqli_payloads_first4 [] []
              (manual_xss_testing_in_order Examples.leaky Examples.urlparse_t
                 ["http://t/?id=1"; "http://t/?id=2"] xss_payloads_first5 [])
              (collect (rev (map fst (xss_futures Examples.leaky Examples.urlparse_t
                                        ["http://t/?id=2"; "http://t/?id=1"]
                                        xss_payloads_first5))) [])
              (manual_sqli_testing_in_order Examples.leaky
                 ["http://t/?id=1"; "http://t/?id=2"] sqli_payloads_first4 [])
              (collect (rev (map fst (sqli_futures Examples.leaky
                                        ["http://t/?id=2"; "http://t/?id=1"]
                                        sqli_payloads_first4))) []))
    as [Hx Hs].
  - apply perm_swap.
  - eexists. split; [apply Permutation_refl | reflexivity].
  - eexists. split; [apply Permutation_rev | reflexivity].
  - eexists. split; [apply Permutation_refl | reflexivity].
  - eexists. split; [apply Permutation_rev | reflexivity].
  - split; [apply Hx | apply Hs]; right; cbn; lia.
Defined.

(** The leaky target gives five XSS findings and four SQLi findings, so the
    instances above are about non-empty results. *)
Example leaky_findings :
  length (manual_xss_testing_in_order Examples.leaky Examples.urlparse_t
            ["http://t/?id=1"] xss_payloads_first5 []) = 5%nat /\
  map f_type (manual_sqli_testing_in_order Examples.leaky
                ["http://t/?id=1"] sqli_payloads_first4 []) =
    [error_based_sqli; error_based_sqli; error_based_sqli; error_based_sqli].
Proof. split; vm_compute; reflexivity. Qed.

(** C7, counterexample: a scan in which all four units fail and a scan in
    which none fails leave the same result, the empty list; the result of
    a scan keeps no count of the failed units. *)
Lemma failures_leave_no_record :
  manual_sqli_testing Examples.unreachable ["http://t/?id=1"] sqli_payloads_first4 [] [] /\
  manual_sqli_testing Examples.blank ["http://t/?id=1"] sqli_payloads_first4 [] [] /\
  sqli_errored_units Examples.unreachable ["http://t/?id=1"] sqli_payloads_first4 = 4%nat /\
  sqli_errored_units Examples.blank ["http://t/?id=1"] sqli_payloads_first4 = 0%nat.
Proof.
  split; [|split; [|split]].
  - eexists. split; [apply Permutation_refl | vm_compute; reflexivity].
  - eexists. split; [apply Permutation_refl | vm_compute; reflexivity].
  - vm_compute. reflexivity.
  - vm_compute. reflexivity.
Qed.

(** C10, an instance: the payload [javascript:alert(1)]. *)
Lemma plain_payload_never_reflected_witness :
  escaped_form "javascript:alert(1)" = "javascript:alert(1)" /\
  (forall body, reflection_check "javascript:alert(1)" body = false) /\
  (forall f, fst (test_xss_payload Examples.echoing Examples.urlparse_t
                    "http://t/?id=1" "javascript:alert(1)") = Some f ->
             f_type f <> reflected_xss).
Proof.
  apply (plain_payload_never_reflected Examples.echoing Examples.urlparse_t
           "http://t/?id=1" "javascript:alert(1)"); reflexivity.
Defined.

(** ** CORS *)

(** C6 (as the code has it): a unit of [manual_cors_testing] records an
    issue exactly when the request is answered and the allow-origin header
    equals the origin sent or is the wildcard, whatever the
    allow-credentials header says; the risk is [High] when the
    allow-credentials header is [true] and [Medium] otherwise. *)
Theorem cors_issue_iff_echo_or_wildcard transport url origin :
  ((exists issue, fst (cors_unit transport url origin) = Some issue) <->
   (exists response,
      transport (cors_request url origin) = Some response /\
      (headers_get (headers response) "Access-Control-Allow-Origin" = origin \/
       headers_get (headers response) "Access-Control-Allow-Origin" = "*"))) /\
  (forall response issue,
     transport (cors_request url origin) = Some response ->
     fst (cors_unit transport url origin) = Some issue ->
     c_acac issue = headers_get (headers response) "Access-Control-Allow-Credentials" /\
     (c_acac issue = "true" -> c_risk issue = High) /\
     (c_acac issue <> "true" -> c_risk issue = Medium)).
Proof.
  unfold cors_unit, cors_probe. rewrite fst_try_except, fst_bind.
  unfold requests_get_headers, send, cors_request. cbn [fst].
  destruct (transport _) as [response|].
  2:{ split; [split; [intros [i H]; discriminate | intros (r & H & _); discriminate]
             | intros r i H; discriminate]. }
  set (acao := headers_get (headers response) "Access-Control-Allow-Origin").
  set (acac := headers_get (headers response) "Access-Control-Allow-Credentials").
  destruct (String.eqb acao origin || String.eqb acao "*") eqn:E; cbn [fst ret].
  - apply orb_true_iff in E. rewrite !String.eqb_eq in E. split.
    + split; [intros _; exists response; auto | intros _; eexists; reflexivity].
    + intros r i [= <-] [= <-]. cbn [c_acac c_risk]. split; [reflexivity|].
      destruct (String.eqb acac "true") eqn:Ec.
      * split; [reflexivity | intros Hn; apply String.eqb_eq in Ec; contradiction].
      * split; [intros Ht; apply String.eqb_neq in Ec; contradiction | reflexivity].
  - apply orb_false_iff in E. rewrite !String.eqb_neq in E. split.
    + split; [intros [i H]; discriminate|].
      intros (r & [= <-] & H). fold acao in H. tauto.
    + intros r i _ H. discriminate.
Qed.

(** C6, counterexample: a target that answers with the wildcard
    allow-origin header and no allow-credentials header gets an issue of
    risk [Medium] for each of the three origins tried. *)
Lemma wildcard_without_credentials_is_reported :
  manual_cors_testing Examples.wildcard_cors ["https://t.example"] [] =
    [ mkCorsIssue "https://t.example" "https://evil.com" "*" EmptyString Medium;
      mkCorsIssue "https://t.example" "null" "*" EmptyString Medium;
      mkCorsIssue "https://t.example" "https://attacker.com" "*" EmptyString Medium ].
Proof. vm_compute. reflexivity. Qed.

(** ** The corpus *)

Lemma corpus_In harvested u :
  In u (corpus harvested) <-> In u harvested /\ chr_in "=" u = true.
Proof.
  unfold corpus, urls_with_params, comprehensive_url_collection, all_urls.
  rewrite List.filter_In, <- !list_elem_of_In, elem_of_elements, elem_of_list_to_set.
  reflexivity.
Qed.

(** C8 (as the code has it): the candidate list holds no URL string
    twice, and holds exactly the harvested strings that contain an [=]:
    URLs are told apart by their whole text, parameter values included. *)
Theorem corpus_has_no_repeated_url harvested :
  List.NoDup (corpus harvested) /\
  (forall u, In u (corpus harvested) <-> In u harvested /\ chr_in "=" u = true).
Proof.
  split; [|intros u; apply corpus_In].
  unfold corpus, urls_with_params. apply List.NoDup_filter.
  apply NoDup_ListNoDup. unfold comprehensive_url_collection. apply NoDup_elements.
Qed.

(** C8, counterexample: two harvested URLs that differ only in the value
    of their parameter are both in the candidate list. *)
Lemma urls_differing_in_value_both_kept :
  In "http://t/?q=1" (corpus ["http://t/?q=1"; "http://t/?q=2"]) /\
  In "http://t/?q=2" (corpus ["http://t/?q=1"; "http://t/?q=2"]) /\
  same_injection_point "http://t/?q=1" "http://t/?q=2" /\
  "http://t/?q=1" <> "http://t/?q=2".
Proof.
  split; [|split; [|split]].
  - refine (proj2 (corpus_In _ _) _). split; [left; reflexivity | reflexivity].
  - refine (proj2 (corpus_In _ _) _). split; [right; left; reflexivity | reflexivity].
  - reflexivity.
  - discriminate.
Qed.

(** ** Worked examples *)

Example quote_script :
  quote "<script>alert(1)</script>" = "%3Cscript%3Ealert%281%29%3C/script%3E".
Proof. reflexivity. Qed.

Example re_sub_two_params :
  re_sub_value "X" "http://t/p?a=1&b=2=3&c" = "http://t/p?a=X&b=X&c".
Proof. reflexivity. Qed.

Example split_query : split_chr "&" "a=1&b=2" = ["a=1"; "b=2"].
Proof. reflexivity. Qed.

Example lower_mixed : lower "MySQL Error" = "mysql error".
Proof. reflexivity. Qed.

(** An unescaped reflection is reported; a body with only the escaped
    form is not. *)
Example reflection_examples :
  reflection_check "<script>alert(1)</script>"
                   "hello <script>alert(1)</script>" = true /\
  reflection_check "<script>alert(1)</script>"
                   "hello &lt;script&gt;alert(1)&lt;/script&gt;" = false.
Proof. split; reflexivity. Qed.

(** A new database error is reported; one the baseline already shows is
    not. *)
Example error_signature_examples :
  error_signature_check "You have an error in your SQL syntax" "hello"
    = Some "sql syntax" /\
  error_signature_check "You have an error in your SQL syntax"
                        "you have an error in your sql syntax" = None.
Proof. split; reflexivity. Qed.

(** * Further properties of the engine *)

(** ** Characters and the payload substitution *)

(** A property checked on all 256 code points holds of every one. *)
Lemma all_ascii (P : ascii -> bool) :
  forallb P (map ascii_of_nat (seq 0 256)) = true -> forall c, P c = true.
Proof.
  intros H c. rewrite forallb_forall in H. apply H.
  rewrite <- (ascii_nat_embedding c). apply in_map, in_seq.
  pose proof (nat_ascii_bounded c). lia.
Qed.

Lemma all_chars_app p a b :
  all_chars p (String.append a b) = all_chars p a && all_chars p b.
Proof.
  induction a as [|c a IH]; simpl; [reflexivity|].
  rewrite IH. apply andb_assoc.
Qed.

Lemma all_chars_In p s c :
  all_chars p s = true -> chr_in c s = true -> p c = true.
Proof.
  induction s as [|b s IH]; cbn [all_chars chr_in]; [discriminate|].
  intros Hall Hin. apply andb_true_iff in Hall. destruct Hall as [Hb Hs].
  apply orb_true_iff in Hin. destruct Hin as [Hin|Hin]; [|auto].
  apply Ascii.eqb_eq in Hin. subst b. exact Hb.
Qed.

Lemma all_chars_weaken (p q : ascii -> bool) s :
  (forall c, p c = true -> q c = true) ->
  all_chars p s = true -> all_chars q s = true.
Proof.
  intros Hpq. induction s as [|b s IH]; cbn [all_chars]; [reflexivity|].
  intros H. apply andb_true_iff in H. destruct H as [Hb Hs].
  rewrite (Hpq _ Hb), (IH Hs). reflexivity.
Qed.

Lemma chr_in_app c a b :
  chr_in c (String.append a b) = chr_in c a || chr_in c b.
Proof.
  induction a as [|d a IH]; simpl; [reflexivity|].
  rewrite IH. apply orb_assoc.
Qed.

Lemma quote_chr_quoted c : all_chars quoted_char (quote_chr c) = true.
Proof.
  revert c. apply (all_ascii (fun c => all_chars quoted_char (quote_chr c))).
  vm_compute. reflexivity.
Qed.

Lemma quote_quoted s : all_chars quoted_char (quote s) = true.
Proof.
  induction s as [|c s IH]; [reflexivity|].
  change (quote (String c s)) with (String.append (quote_chr c) (quote s)).
  rewrite all_chars_app, quote_chr_quoted, IH. reflexivity.
Qed.

Lemma quote_no_ampersand s :
  all_chars (fun c => negb (Ascii.eqb c "&")) (quote s) = true.
Proof.
  apply (all_chars_weaken quoted_char); [|apply quote_quoted].
  intros c Hc. destruct (Ascii.eqb c "&") eqn:E; [|reflexivity].
  apply Ascii.eqb_eq in E. subst c. discriminate Hc.
Qed.

Lemma re_sub_scan_skips repl r t :
  all_chars (fun c => negb (Ascii.eqb c "&")) r = true ->
  re_sub_scan repl true (String.append r t) = re_sub_scan repl true t.
Proof.
  induction r as [|c r IH]; simpl; [reflexivity|].
  intros H. apply andb_true_iff in H. destruct H as [Hc Hr].
  apply negb_true_iff in Hc. rewrite Hc. exact (IH Hr).
Qed.

Lemma re_sub_scan_twice r1 r2 b url :
  all_chars (fun c => negb (Ascii.eqb c "&")) r1 = true ->
  re_sub_scan r2 b (re_sub_scan r1 b url) = re_sub_scan r2 b url.
Proof.
  intros Hr. revert b.
  induction url as [|c url IH]; intros b; [destruct b; reflexivity|].
  destruct b; cbn [re_sub_scan].
  - destruct (Ascii.eqb c "&") eqn:E.
    + cbn [re_sub_scan]. rewrite E, IH. reflexivity.
    + apply IH.
  - destruct (Ascii.eqb c "=") eqn:E.
    + cbn [re_sub_scan]. change (Ascii.eqb "=" "=") with true. cbv iota.
      rewrite (re_sub_scan_skips r2 r1 _ Hr), IH. reflexivity.
    + cbn [re_sub_scan]. rewrite E, IH. reflexivity.
Qed.

(** X1: substituting a second payload into an already mutated URL gives
    the same URL as substituting it into the original: every parameter
    value is overwritten and the shape of the query is kept. *)
Theorem inject_overwrites url payload1 payload2 :
  inject (inject url payload1) payload2 = inject url payload2.
Proof.
  unfold inject, re_sub_value.
  apply re_sub_scan_twice, quote_no_ampersand.
Qed.

Lemma re_sub_scan_no_equals repl url :
  chr_in "=" url = false -> re_sub_scan repl false url = url.
Proof.
  induction url as [|c url IH]; cbn [chr_in re_sub_scan]; [reflexivity|].
  intros H. apply orb_false_iff in H. destruct H as [Hc Hu].
  rewrite Ascii.eqb_sym in Hc. rewrite Hc, (IH Hu). reflexivity.
Qed.

(** X2: a URL without an [=] is left unchanged by the substitution: the
    mutated request would be the request for the URL itself. *)
Theorem inject_without_parameter url payload :
  chr_in "=" url = false -> inject url payload = url.
Proof. intros H. apply re_sub_scan_no_equals, H. Qed.

Lemma inject_without_parameter_witness :
  inject "http://t/index.html" "<script>alert(1)</script>" = "http://t/index.html".
Proof.
  apply (inject_without_parameter "http://t/index.html" "<script>alert(1)</script>").
  reflexivity.
Defined.

Lemma re_sub_scan_chars repl b url d :
  chr_in d (re_sub_scan repl b url) = true ->
  chr_in d url = true \/ chr_in d repl = true.
Proof.
  revert b. induction url as [|c url IH]; intros b; [destruct b; discriminate|].
  destruct b; cbn [re_sub_scan chr_in].
  - destruct (Ascii.eqb c "&").
    + cbn [chr_in]. intros H. apply orb_true_iff in H. destruct H as [H|H].
      * left. rewrite H. reflexivity.
      * destruct (IH _ H) as [H'|H']; [left; rewrite H'; apply orb_true_r | auto].
    + intros H. destruct (IH _ H) as [H'|H']; [left; rewrite H'; apply orb_true_r | auto].
  - destruct (Ascii.eqb c "=") eqn:E.
    + apply Ascii.eqb_eq in E. subst c. cbn [chr_in]. rewrite chr_in_app.
      intros H. apply orb_true_iff in H. destruct H as [H|H].
      * left. rewrite H. reflexivity.
      * apply orb_true_iff in H. destruct H as [H|H]; [auto|].
        destruct (IH _ H) as [H'|H']; [left; rewrite H'; apply orb_true_r | auto].
    + cbn [chr_in]. intros H. apply orb_true_iff in H. destruct H as [H|H].
      * left. rewrite H. reflexivity.
      * destruct (IH _ H) as [H'|H']; [left; rewrite H'; apply orb_true_r | auto].
Qed.

(** X3: the payload reaches the mutated URL only in percent-encoded form:
    every character of the mutated URL is a character of the original
    URL, a letter, a digit, one of [_.-~/] or the percent sign. *)
Theorem inject_only_adds_encoded_characters url payload c :
  chr_in c (inject url payload) = true ->
  chr_in c url = true \/ quote_safe c = true \/ c = "%"%char.
Proof.
  intros H. destruct (re_sub_scan_chars _ _ _ _ H) as [H'|H']; [auto|].
  right. pose proof (all_chars_In _ _ _ (quote_quoted payload) H') as Hq.
  unfold quoted_char in Hq. apply orb_true_iff in Hq.
  destruct Hq as [Hq|Hq]; [auto | right; apply Ascii.eqb_eq, Hq].
Qed.

Lemma inject_only_adds_encoded_characters_witness :
  chr_in "%" "http://t/?q=1" = true \/ quote_safe "%" = true \/ "%"%char = "%"%char.
Proof.
  apply (inject_only_adds_encoded_characters "http://t/?q=1" "<b>" "%"%char).
  reflexivity.
Defined.

(** ** The requests of an XSS unit *)

Lemma split_chr_absent c s :
  chr_in c s = false -> split_chr c s = [s].
Proof.
  induction s as [|b s IH]; cbn [chr_in split_chr]; [reflexivity|].
  intros H. apply orb_false_iff in H. destruct H as [Hb Hs].
  rewrite Ascii.eqb_sym in Hb. rewrite Hb, (IH Hs). reflexivity.
Qed.

Lemma snd_parse_params pieces : snd (parse_params pieces) = [].
Proof.
  induction pieces as [|param rest IH]; cbn [parse_params]; [reflexivity|].
  destruct (chr_in "=" param); [|exact IH].
  rewrite snd_bind. unfold or_raise. cbn [fst snd app].
  destruct (split_param param); [|reflexivity].
  rewrite snd_bind, IH. cbn [app].
  destruct (fst (parse_params rest)); reflexivity.
Qed.

Lemma parse_params_raises pieces piece :
  In piece pieces -> (2 < length (split_chr "=" piece))%nat ->
  fst (parse_params pieces) = None.
Proof.
  intros Hin Hlen.
  induction pieces as [|param rest IH]; [destruct Hin|].
  cbn [parse_params]. destruct Hin as [->|Hin].
  - destruct (chr_in "=" piece) eqn:E.
    + rewrite fst_bind. unfold or_raise, split_param. cbn [fst].
      destruct (split_chr "=" piece) as [|k [|v [|w l]]]; cbn [length] in Hlen;
        try lia; reflexivity.
    + rewrite (split_chr_absent _ _ E) in Hlen. cbn [length] in Hlen. lia.
  - destruct (chr_in "=" param); [|exact (IH Hin)].
    rewrite fst_bind. unfold or_raise. cbn [fst].
    destruct (split_param param); [|reflexivity].
    rewrite fst_bind, (IH Hin). reflexivity.
Qed.

Lemma set_item_In d k v :
  In k (PyDict.keys d) -> In (k, v) (PyDict.set_item d k v).
Proof.
  unfold PyDict.keys.
  induction d as [|[k' v'] d IH]; cbn [map In PyDict.set_item fst]; [tauto|].
  intros [->|H].
  - rewrite String.eqb_refl. left. reflexivity.
  - destruct (String.eqb k' k) eqn:E.
    + apply String.eqb_eq in E. subst k'. left. reflexivity.
    + right. exact (IH H).
Qed.

Section XssRequests.

Variable transport : request -> option response.
Variable urlparse : string -> option ParseResult.

Lemma xss_post_loop_requests base_url payload params0 todo r :
  (forall k, In k todo -> In k (PyDict.keys params0)) ->
  In r (snd (xss_post_loop transport base_url payload params0 todo)) ->
  req_method r = POST /\ req_url r = base_url /\
  exists param, In (param, payload) (req_data r).
Proof.
  induction todo as [|param rest IH]; cbn [xss_post_loop]; [intros _ []|].
  intros Hk. rewrite snd_bind. unfold requests_post, send. cbn [fst snd].
  intros H. apply in_app_or in H. destruct H as [H|H].
  - destruct H as [<-|[]]. cbn. repeat split.
    exists param. apply set_item_In, Hk. left. reflexivity.
  - destruct (transport _) as [response|]; [|destruct H].
    destruct (str_in payload (text response)); [destruct H|].
    apply IH; [|exact H]. intros k Hin. apply Hk. right. exact Hin.
Qed.

Lemma xss_post_test_requests url payload r :
  In r (snd (xss_post_test transport urlparse url payload)) ->
  req_method r = POST /\ exists param, In (param, payload) (req_data r).
Proof.
  unfold xss_post_test. rewrite snd_bind. unfold or_raise. cbn [fst snd app].
  destruct (urlparse url) as [parsed_url|]; [|intros []].
  destruct (negb _); [|intros []].
  rewrite snd_bind, snd_parse_params. cbn [app].
  destruct (fst (parse_params _)) as [pairs|]; [|intros []].
  intros H. apply xss_post_loop_requests in H; [tauto | auto].
Qed.

(** The requests of a unit, by cases on the GET response. *)
Lemma test_xss_payload_requests url payload :
  snd (test_xss_payload transport urlparse url payload) =
  if chr_in "=" url then
    xss_probe_request url payload ::
    match transport (xss_probe_request url payload) with
    | Some response =>
        if reflection_check payload (text response) then []
        else snd (xss_post_test transport urlparse url payload)
    | None => []
    end
  else snd (xss_post_test transport urlparse url payload).
Proof.
  unfold test_xss_payload, test_xss_payload_body.
  rewrite snd_try_except, snd_bind. unfold xss_get_test.
  destruct (chr_in "=" url); [|reflexivity].
  rewrite snd_bind, fst_bind. unfold requests_get, send, xss_probe_request.
  cbn [fst snd].
  destruct (transport _) as [response|]; [|reflexivity].
  destruct (reflection_check payload (text response)); reflexivity.
Qed.

(** X4: every request an XSS unit sends is the GET of the mutated URL or
    a POST that carries the payload as the value of a parameter; and once
    the GET test reports, that GET is the only request sent. *)
Theorem xss_unit_sends_probe_then_posts url payload :
  (forall r, In r (snd (test_xss_payload transport urlparse url payload)) ->
     r = xss_probe_request url payload \/
     (req_method r = POST /\ exists param, In (param, payload) (req_data r))) /\
  (forall response,
     chr_in "=" url = true ->
     transport (xss_probe_request url payload) = Some response ->
     reflection_check payload (text response) = true ->
     snd (test_xss_payload transport urlparse url payload) =
       [xss_probe_request url payload]).
Proof.
  rewrite test_xss_payload_requests. split.
  - intros r. destruct (chr_in "=" url).
    + intros [<-|H]; [left; reflexivity|]. right.
      destruct (transport _) as [response|]; [|destruct H].
      destruct (reflection_check _ _); [destruct H|].
      exact (xss_post_test_requests _ _ _ H).
    + intros H. right. exact (xss_post_test_requests _ _ _ H).
  - intros response -> -> ->. reflexivity.
Qed.

(** X5: when a piece of the query holds more than one [=], building the
    parameter dictionary raises: the POST test sends nothing, and the unit
    can only return the finding of the GET test. *)
Theorem value_with_equals_is_never_post_tested url payload parsed_url piece :
  urlparse url = Some parsed_url ->
  In piece (split_chr "&" (query parsed_url)) ->
  (2 < length (split_chr "=" piece))%nat ->
  xss_post_test transport urlparse url payload = (None, []) /\
  (forall r, In r (snd (test_xss_payload transport urlparse url payload)) ->
             r = xss_probe_request url payload) /\
  (forall f, fst (test_xss_payload transport urlparse url payload) = Some f ->
             f_type f = reflected_xss).
Proof.
  intros Hparse Hin Hlen.
  assert (Hpost : xss_post_test transport urlparse url payload = (None, [])).
  { unfold xss_post_test. rewrite Hparse. unfold or_raise, bind at 1.
    destruct (String.eqb (query parsed_url) EmptyString) eqn:Hq.
    - apply String.eqb_eq in Hq. rewrite Hq in Hin.
      destruct Hin as [<-|[]]. cbn in Hlen. lia.
    - cbn [negb].
      pose proof (parse_params_raises _ _ Hin Hlen) as Hf.
      pose proof (snd_parse_params (split_chr "&" (query parsed_url))) as Hs.
      destruct (parse_params (split_chr "&" (query parsed_url))) as [o tr].
      cbn [fst snd] in Hf, Hs. subst o tr. reflexivity. }
  split; [exact Hpost|]. split.
  - intros r. rewrite test_xss_payload_requests, Hpost. cbn [snd].
    destruct (chr_in "=" url); [|intros []].
    intros [<-|H]; [reflexivity|].
    destruct (transport _) as [response|]; [|destruct H].
    destruct (reflection_check _ _); destruct H.
  - intros f. rewrite test_xss_payload_cases, Hpost. cbn [fst].
    destruct (chr_in "=" url); [|discriminate].
    destruct (transport _) as [response|]; [|discriminate].
    destruct (reflection_check _ _); [|discriminate].
    intros [= <-]. reflexivity.
Qed.

End XssRequests.

Lemma value_with_equals_is_never_post_tested_witness :
  xss_post_test Examples.blank
    (fun _ => Some (mkParseResult "http" "t" "/" EmptyString "x=a=b" EmptyString))
    "http://t/?x=a=b" "<b>" = (None, []) /\
  (forall r, In r (snd (test_xss_payload Examples.blank
                          (fun _ => Some (mkParseResult "http" "t" "/" EmptyString
                                                        "x=a=b" EmptyString))
                          "http://t/?x=a=b" "<b>")) ->
             r = xss_probe_request "http://t/?x=a=b" "<b>") /\
  (forall f, fst (test_xss_payload Examples.blank
                    (fun _ => Some (mkParseResult "http" "t" "/" EmptyString
                                                  "x=a=b" EmptyString))
                    "http://t/?x=a=b" "<b>") = Some f ->
             f_type f = reflected_xss).
Proof.
  apply (value_with_equals_is_never_post_tested Examples.blank
           (fun _ => Some (mkParseResult "http" "t" "/" EmptyString "x=a=b" EmptyString))
           "http://t/?x=a=b" "<b>"
           (mkParseResult "http" "t" "/" EmptyString "x=a=b" EmptyString) "x=a=b").
  - reflexivity.
  - left. reflexivity.
  - cbn. lia.
Defined.

(** ** Loops that run in order *)

Lemma somes_app {A} (a b : list (option A)) : somes (a ++ b) = somes a ++ somes b.
Proof.
  induction a as [|[x|] a IH]; cbn [app somes]; [reflexivity| |exact IH].
  rewrite IH. reflexivity.
Qed.

Lemma somes_In {A} (x : A) l : In x (somes l) <-> In (Some x) l.
Proof.
  induction l as [|[y|] l IH]; cbn [somes In].
  - tauto.
  - rewrite IH. split; intros [H|H]; auto; left; congruence.
  - rewrite IH. split; [auto | intros [H|H]; [discriminate | exact H]].
Qed.

Lemma somes_length {A} (l : list (option A)) : (length (somes l) <= length l)%nat.
Proof. induction l as [|[y|] l IH]; cbn [somes length]; lia. Qed.

Lemma run_in_order_spec {U A} (unit : U -> option A * list request) us acc :
  run_in_order unit us acc =
  (acc ++ somes (map (fun u => fst (unit u)) us),
   concat (map (fun u => snd (unit u)) us)).
Proof.
  unfold run_in_order.
  assert (G : forall st,
    fold_left (fun st u =>
                 let r := unit u in
                 (match fst r with Some a => fst st ++ [a] | None => fst st end,
                  snd st ++ snd r)) us st =
    (fst st ++ somes (map (fun u => fst (unit u)) us),
     snd st ++ concat (map (fun u => snd (unit u)) us))).
  { induction us as [|u us IH]; intros [xs tr]; cbn [fold_left map somes concat fst snd].
    - rewrite !app_nil_r. reflexivity.
    - rewrite IH. cbn [fst snd]. destruct (fst (unit u)); cbn [somes];
        rewrite <- ?app_assoc; reflexivity. }
  rewrite G. reflexivity.
Qed.

Lemma length_concat_const {A B} (f : A -> list B) (l : list A) n :
  (forall a, In a l -> length (f a) = n) ->
  length (concat (map f l)) = (length l * n)%nat.
Proof.
  induction l as [|a l IH]; cbn [map concat length]; [reflexivity|].
  intros H. rewrite length_app, (H a (or_introl eq_refl)), IH; [lia|].
  intros b Hb. apply H. right. exact Hb.
Qed.

Lemma length_pairs {A B} (l : list A) (l' : list B) :
  length (flat_map (fun a => map (fun b => (a, b)) l') l) = (length l * length l')%nat.
Proof.
  induction l as [|a l IH]; cbn [flat_map length]; [reflexivity|].
  rewrite length_app, length_map, IH. reflexivity.
Qed.

Lemma In_pairs {A B} (l : list A) (l' : list B) a b :
  In (a, b) (flat_map (fun a => map (fun b => (a, b)) l') l) <-> In a l /\ In b l'.
Proof.
  rewrite in_flat_map. split.
  - intros (x & Hx & H). apply in_map_iff in H. destruct H as (y & [= -> ->] & Hy). auto.
  - intros [Ha Hb]. exists a. split; [exact Ha|]. apply in_map. exact Hb.
Qed.

Lemma In_firstn_In {A} n (l : list A) x : In x (firstn n l) -> In x l.
Proof.
  intros H. rewrite <- (firstn_skipn n l). apply in_or_app. left. exact H.
Qed.

Lemma find_first {A} (p : A -> bool) l x :
  List.find p l = Some x ->
  exists before after,
    l = before ++ x :: after /\ p x = true /\ forall y, In y before -> p y = false.
Proof.
  induction l as [|a l IH]; cbn [List.find]; [discriminate|].
  destruct (p a) eqn:E.
  - intros [= <-]. exists [], l. split; [reflexivity|]. split; [exact E | intros y []].
  - intros H. destruct (IH H) as (before & after & -> & Hx & Hb).
    exists (a :: before), after. split; [reflexivity|]. split; [exact Hx|].
    intros y [<-|Hy]; [exact E | exact (Hb y Hy)].
Qed.

(** ** Local file inclusion *)

Section LfiProofs.

Variable transport : request -> option response.

Lemma test_lfi_payload_cases url payload :
  test_lfi_payload transport url payload =
  (match transport (lfi_request url payload) with
   | Some response =>
       match List.find (fun indicator => str_in indicator (text response))
                       lfi_indicators with
       | Some indicator =>
           Some (mkLfiFinding (inject url payload) payload indicator High)
       | None => None
       end
   | None => None
   end, [lfi_request url payload]).
Proof.
  unfold test_lfi_payload, test_lfi_payload_body, try_except, bind, requests_get,
    send, lfi_request.
  destruct (transport _) as [response|]; [|reflexivity].
  destruct (List.find _ lfi_indicators); reflexivity.
Qed.

(** X6: an LFI unit returns a finding exactly when its request is
    answered and an indicator occurs in the response body, with its case
    as written and without regard to what the page shows unprobed; the
    evidence is the first indicator of the list that occurs. *)
Theorem lfi_finding_iff_indicator_in_body url payload :
  ((exists f, fst (test_lfi_payload transport url payload) = Some f) <->
   (exists response indicator,
      transport (lfi_request url payload) = Some response /\
      In indicator lfi_indicators /\
      str_in indicator (text response) = true)) /\
  (forall f response,
     fst (test_lfi_payload transport url payload) = Some f ->
     transport (lfi_request url payload) = Some response ->
     l_risk f = High /\
     exists before after,
       lfi_indicators = before ++ l_evidence f :: after /\
       str_in (l_evidence f) (text response) = true /\
       forall indicator, In indicator before ->
                         str_in indicator (text response) = false).
Proof.
  rewrite test_lfi_payload_cases. cbn [fst].
  destruct (transport (lfi_request url payload)) as [response|].
  2:{ split; [split; [intros [f H]; discriminate
                     | intros (r & i & H & _); discriminate]
             | intros f r H; discriminate]. }
  destruct (List.find _ lfi_indicators) as [indicator|] eqn:E.
  - split.
    + split; [|intros _; eexists; reflexivity].
      intros _. apply find_some in E. exists response, indicator. tauto.
    + intros f r [= <-] [= <-]. cbn [l_risk l_evidence].
      split; [reflexivity|]. exact (find_first _ _ _ E).
  - split.
    + split; [intros [f H]; discriminate|].
      intros (r & i & [= <-] & Hin & Hi).
      pose proof (find_none _ _ E i Hin) as Hn. cbv beta in Hn. congruence.
    + intros f r H. discriminate.
Qed.

(** X7: the LFI scan sends exactly one request for each of its units, the
    GET of the mutated URL; it has one unit for every payload of the whole
    catalogue and each of the first 30 kept URLs; and a URL is kept only
    when it has an [=] and its lower-cased text contains a keyword. *)
Theorem lfi_scan_sends_one_request_per_unit urls lfi_payloads :
  lfi_requests transport urls lfi_payloads =
    map (fun u => lfi_request (fst u) (snd u)) (lfi_units urls lfi_payloads) /\
  length (lfi_units urls lfi_payloads) =
    (length (firstn 30 (lfi_urls urls)) * length lfi_payloads)%nat /\
  (forall url payload,
     In (url, payload) (lfi_units urls lfi_payloads) ->
     In url urls /\ chr_in "=" url = true /\
     exists keyword, In keyword lfi_keywords /\ str_in keyword (lower url) = true).
Proof.
  split; [|split].
  - unfold lfi_requests, lfi_futures. rewrite map_map.
    induction (lfi_units urls lfi_payloads) as [|u us IH]; cbn [map concat];
      [reflexivity|].
    rewrite IH, test_lfi_payload_cases. reflexivity.
  - apply length_pairs.
  - intros url payload H. unfold lfi_units in H. apply In_pairs in H.
    destruct H as [H _]. apply In_firstn_In in H. unfold lfi_urls in H.
    apply List.filter_In in H. destruct H as [Hin H].
    apply andb_true_iff in H. destruct H as [He Hk].
    apply existsb_exists in Hk. auto.
Qed.

End LfiProofs.

(** ** Header injection and subdomain takeover *)

Section SequentialProofs.

Variable transport : request -> option response.

Lemma header_unit_cases u :
  header_unit transport u =
  (match transport (header_request (fst u) (fst (snd u)) (snd (snd u))) with
   | Some response =>
       if str_in (snd (snd u)) (text response) then
         Some (mkHeaderVulnerability (fst u) (fst (snd u)) (snd (snd u)) Medium)
       else None
   | None => None
   end, [header_request (fst u) (fst (snd u)) (snd (snd u))]).
Proof.
  unfold header_unit, header_probe, try_except, bind, requests_get_headers, send,
    header_request.
  destruct (transport _) as [response|]; [|reflexivity].
  destruct (str_in _ (text response)); reflexivity.
Qed.

Lemma header_injection_spec live_subdomains v :
  (In v (fst (manual_header_injection_testing transport live_subdomains)) <->
   (In (h_url v) (firstn 5 live_subdomains) /\
    In (h_header v, h_payload v) test_headers /\
    h_risk v = Medium /\
    exists response,
      transport (header_request (h_url v) (h_header v) (h_payload v)) = Some response /\
      str_in (h_payload v) (text response) = true)) /\
  length (snd (manual_header_injection_testing transport live_subdomains)) =
    (length (firstn 5 live_subdomains) * 7)%nat.
Proof.
  unfold manual_header_injection_testing. rewrite run_in_order_spec.
  cbn [fst snd app]. split.
  - rewrite somes_In, in_map_iff. split.
    + intros ([url [header value]] & Hu & Hin).
      rewrite header_unit_cases in Hu. cbn [fst snd] in Hu.
      unfold header_units in Hin. apply In_pairs in Hin. destruct Hin as [H1 H2].
      destruct (transport _) as [response|] eqn:Ht; [|discriminate].
      destruct (str_in value (text response)) eqn:Hs; [|discriminate].
      injection Hu as <-. cbn. eauto 6.
    + intros (H1 & H2 & H3 & response & Ht & Hs).
      exists (h_url v, (h_header v, h_payload v)). split.
      * rewrite header_unit_cases. cbn [fst snd]. rewrite Ht, Hs.
        destruct v as [u h p r]. cbn in *. subst r. reflexivity.
      * apply In_pairs. auto.
  - rewrite (length_concat_const _ _ 1%nat).
    + unfold header_units. rewrite length_pairs. cbn [test_headers length]. lia.
    + intros u _. rewrite header_unit_cases. reflexivity.
Qed.


(** X8: a header vulnerability is reported exactly for a URL among the
    first five live subdomains and a header of the table whose request is
    answered by a body containing the value sent, with risk [Medium]; and
    the scan sends seven requests for each of those URLs. *)
Theorem header_injection_reported_iff live_subdomains v :
  (In v (fst (manual_header_injection_testing transport live_subdomains)) <->
   (In (h_url v) (firstn 5 live_subdomains) /\
    In (h_header v, h_payload v) test_headers /\
    h_risk v = Medium /\
    exists response,
      transport (header_request (h_url v) (h_header v) (h_payload v)) = Some response /\
      str_in (h_payload v) (text response) = true)) /\
  length (snd (manual_header_injection_testing transport live_subdomains)) =
    (length (firstn 5 live_subdomains) * 7)%nat.
Proof. exact (header_injection_spec live_subdomains v). Qed.

(** X9: the header test compares with nothing: when the answer for a URL
    is the same whatever headers are sent, and that page contains the
    value of a header of the table, the header is reported all the same. *)
Theorem header_injection_reports_static_text live_subdomains url header value page :
  In url (firstn 5 live_subdomains) ->
  In (header, value) test_headers ->
  (forall hs, transport (mkRequest GET url hs [] 10) = Some page) ->
  str_in value (text page) = true ->
  In (mkHeaderVulnerability url header value Medium)
     (fst (manual_header_injection_testing transport live_subdomains)).
Proof.
  intros Hurl Hh Hstatic Hin.
  apply (proj2 (proj1 (header_injection_spec live_subdomains _))).
  cbn. repeat split; auto. exists page. split; [apply Hstatic | exact Hin].
Qed.

Lemma takeover_unit_cases u :
  takeover_unit transport u =
  if str_in (fst (snd u)) (fst u) then
    (match transport (takeover_request (fst u)) with
     | Some response =>
         if str_in (snd (snd u)) (text response) then
           Some (mkTakeoverResult (fst u) (fst (snd u)) (snd (snd u)) Critical)
         else None
     | None => None
     end, [takeover_request (fst u)])
  else (None, []).
Proof.
  unfold takeover_unit, takeover_probe, try_except, bind, requests_get, send,
    takeover_request.
  destruct (str_in (fst (snd u)) (fst u)); [|reflexivity].
  destruct (transport _) as [response|]; [|reflexivity].
  destruct (str_in _ (text response)); reflexivity.
Qed.

(** X10: a takeover is reported exactly for a subdomain whose name
    contains a service of the table and whose page, fetched over plain
    HTTP, contains that service's signature, with risk [Critical]; and a
    request is sent only to a subdomain whose name contains a service of
    the table. *)
Theorem takeover_reported_iff subdomains :
  (forall res,
     In res (fst (manual_takeover_detection transport subdomains)) <->
     (In (t_subdomain res) subdomains /\
      In (t_service res, t_signature res) takeover_signatures /\
      t_risk res = Critical /\
      str_in (t_service res) (t_subdomain res) = true /\
      exists response,
        transport (takeover_request (t_subdomain res)) = Some response /\
        str_in (t_signature res) (text response) = true)) /\
  (forall r,
     In r (snd (manual_takeover_detection transport subdomains)) ->
     exists subdomain service signature,
       In subdomain subdomains /\
       In (service, signature) takeover_signatures /\
       str_in service subdomain = true /\
       r = takeover_request subdomain).
Proof.
  unfold manual_takeover_detection. rewrite run_in_order_spec.
  cbn [fst snd app]. split.
  - intros res. rewrite somes_In, in_map_iff. split.
    + intros ([subdomain [service signature]] & Hu & Hin).
      rewrite takeover_unit_cases in Hu. cbn [fst snd] in Hu.
      unfold takeover_units in Hin. apply In_pairs in Hin. destruct Hin as [H1 H2].
      destruct (str_in service subdomain) eqn:Hsv; [|discriminate].
      destruct (transport _) as [response|] eqn:Ht; [|discriminate].
      destruct (str_in signature (text response)) eqn:Hs; [|discriminate].
      injection Hu as <-. cbn. eauto 8.
    + intros (H1 & H2 & H3 & H4 & response & Ht & Hs).
      exists (t_subdomain res, (t_service res, t_signature res)). split.
      * rewrite takeover_unit_cases. cbn [fst snd]. rewrite H4, Ht, Hs.
        destruct res as [sd sv sg r]. cbn in *. subst r. reflexivity.
      * apply In_pairs. auto.
  - intros r Hr. apply in_concat in Hr. destruct Hr as (tr & Htr & Hr).
    apply in_map_iff in Htr. destruct Htr as ([subdomain [service signature]] & <- & Hin).
    rewrite takeover_unit_cases in Hr. cbn [fst snd] in Hr.
    unfold takeover_units in Hin. apply In_pairs in Hin. destruct Hin as [H1 H2].
    destruct (str_in service subdomain) eqn:Hsv; [|destruct Hr].
    destruct Hr as [<-|[]]. exists subdomain, service, signature. auto.
Qed.

End SequentialProofs.

(** ** Size of the probe matrix *)

Lemma length_units n m urls payloads :
  (length (units n m urls payloads) <= n * m)%nat.
Proof.
  unfold units. rewrite length_pairs.
  apply Nat.mul_le_mono; apply firstn_le_length.
Qed.

Lemma length_findings_of completed :
  (length (findings_of completed) <= length completed)%nat.
Proof. induction completed as [|[f|] l IH]; cbn [findings_of length]; lia. Qed.

Lemma manual_cors_testing_spec transport live_subdomains acc :
  manual_cors_testing transport live_subdomains acc =
  acc ++ somes (map (fun u => fst (cors_unit transport (fst u) (snd u)))
                    (cors_units live_subdomains)).
Proof.
  unfold manual_cors_testing. revert acc.
  induction (cors_units live_subdomains) as [|u us IH]; intros acc;
    cbn [fold_left map somes].
  - symmetry. apply app_nil_r.
  - rewrite IH. destruct (fst (cors_unit transport (fst u) (snd u))); cbn [somes];
      rewrite <- ?app_assoc; reflexivity.
Qed.

(** X11: the scans are bounded whatever the corpus holds: at most 250 XSS
    units and 80 SQLi units; a SQLi scan sends at least one and at most
    two requests per unit; and a scan adds at most 250 XSS findings, 80
    SQLi findings and 30 CORS issues to its list. *)
Theorem probe_matrix_is_bounded transport urlparse urls xss_payloads sqli_payloads :
  (length (xss_units urls xss_payloads) <= 250)%nat /\
  (length (sqli_units urls sqli_payloads) <= 80)%nat /\
  (length (sqli_units urls sqli_payloads)
   <= length (sqli_requests transport urls sqli_payloads)
   <= 2 * length (sqli_units urls sqli_payloads))%nat /\
  (forall acc out,
     manual_xss_testing transport urlparse urls xss_payloads acc out ->
     (length out <= length acc + 250)%nat) /\
  (forall acc out,
     manual_sqli_testing transport urls sqli_payloads acc out ->
     (length out <= length acc + 80)%nat) /\
  (forall live_subdomains acc,
     (length (manual_cors_testing transport live_subdomains acc)
      <= length acc + 30)%nat).
Proof.
  split; [apply (length_units 50 5)|]. split; [apply (length_units 20 4)|].
  split; [|split; [|split]].
  - unfold sqli_requests, sqli_futures, sqli_units. rewrite map_map.
    induction (units 20 4 urls sqli_payloads) as [|u us IH]; cbn [map concat length];
      [lia|].
    rewrite length_app, test_sqli_payload_cases.
    destruct (transport (baseline_request (fst u)));
      [destruct (transport (sqli_probe_request (fst u) (snd u)))|];
      cbn [snd length]; lia.
  - intros acc out H. destruct (pool_collects _ _ _ H) as (added & -> & _ & Hl).
    rewrite length_app, Hl.
    pose proof (length_findings_of
                  (map fst (xss_futures transport urlparse urls xss_payloads))) as Hf.
    unfold xss_futures in Hf. rewrite !length_map in Hf.
    pose proof (length_units 50 5 urls xss_payloads) as Hx.
    unfold xss_futures, xss_units in *. lia.
  - intros acc out H. destruct (pool_collects _ _ _ H) as (added & -> & _ & Hl).
    rewrite length_app, Hl.
    pose proof (length_findings_of
                  (map fst (sqli_futures transport urls sqli_payloads))) as Hf.
    unfold sqli_futures in Hf. rewrite !length_map in Hf.
    pose proof (length_units 20 4 urls sqli_payloads) as Hs.
    unfold sqli_futures, sqli_units in *. lia.
  - intros live acc. rewrite manual_cors_testing_spec, length_app.
    pose proof (somes_length (map (fun u => fst (cors_unit transport (fst u) (snd u)))
                                  (cors_units live))) as Hc.
    rewrite length_map in Hc.
    assert (Hu : length (cors_units live) = (length (firstn 10 live) * 3)%nat)
      by (unfold cors_units; rewrite length_pairs; reflexivity).
    pose proof (firstn_le_length 10 live). lia.
Qed.

(** ** Progress of a scan *)

Ltac split_status st :=
  repeat match goal with
         | |- context [String.eqb st ?p] =>
             let E := fresh "E" in
             destruct (String.eqb st p) eqn:E;
             [apply String.eqb_eq in E; subst st | apply String.eqb_neq in E]
         end.

(** X12: [calculate_progress] never raises and its result lies between 10
    and 120; it is 120, not 100, exactly when the status is [completed],
    and 100 exactly when the status is [vulnerability_scan]: the branch
    that would answer 100 for [completed] is never reached. *)
Theorem progress_of_completed_scan_is_120 status :
  exists p,
    calculate_progress status = Some p /\
    (10 <= p <= 120)%Z /\
    (p = 120%Z <-> status = Some "completed") /\
    (p = 100%Z <-> status = Some "vulnerability_scan").
Proof.
  destruct status as [st|].
  2:{ exists 10%Z. repeat split; try discriminate; try lia. }
  unfold calculate_progress, phases. cbn [existsb list_index].
  rewrite !(String.eqb_sym _ st).
  split_status st; cbn;
    eexists; (split; [reflexivity|]);
    (split; [lia|]);
    split; split; intros H; try discriminate H; try reflexivity;
    try (injection H as H; congruence).
Qed.

(** ** Domain validation *)

Lemma matches_Void s : Re.matches Re.Void s = false.
Proof. induction s as [|c s IH]; [reflexivity | exact IH]. Qed.

Lemma matches_Alt a b s :
  Re.matches (Re.Alt a b) s = Re.matches a s || Re.matches b s.
Proof.
  revert a b. induction s as [|c s IH]; intros a b; [reflexivity|].
  cbn [Re.matches Re.deriv]. apply IH.
Qed.

Lemma matches_Cat_dead a b :
  (forall s, Re.matches a s = false) -> forall s, Re.matches (Re.Cat a b) s = false.
Proof.
  intros Ha s. revert a Ha. induction s as [|c s IH]; intros a Ha.
  - cbn [Re.matches Re.nullable]. rewrite (Ha EmptyString : Re.nullable a = false).
    reflexivity.
  - cbn [Re.matches Re.deriv]. rewrite matches_Alt.
    rewrite (Ha EmptyString : Re.nullable a = false), matches_Void, orb_false_r.
    apply IH. intros s'. exact (Ha (String c s')).
Qed.

Lemma deriv_outside_alphabet r c :
  Re.alphabet r c = false -> forall s, Re.matches (Re.deriv c r) s = false.
Proof.
  induction r as [| |p|a IHa b IHb|a IHa b IHb|a IHa]; cbn [Re.alphabet Re.deriv];
    intros H s.
  - apply matches_Void.
  - apply matches_Void.
  - rewrite H. apply matches_Void.
  - apply orb_false_iff in H. destruct H as [Ha Hb].
    rewrite matches_Alt, (matches_Cat_dead _ _ (IHa Ha)).
    destruct (Re.nullable a); [apply (IHb Hb) | apply matches_Void].
  - apply orb_false_iff in H. destruct H as [Ha Hb].
    rewrite matches_Alt, (IHa Ha), (IHb Hb). reflexivity.
  - apply matches_Cat_dead, IHa, H.
Qed.

Lemma alphabet_deriv r c d :
  Re.alphabet (Re.deriv c r) d = true -> Re.alphabet r d = true.
Proof.
  induction r as [| |p|a IHa b IHb|a IHa b IHb|a IHa]; cbn [Re.alphabet Re.deriv].
  - discriminate.
  - discriminate.
  - destruct (p c); discriminate.
  - intros H. apply orb_true_iff in H. destruct H as [H|H].
    + apply orb_true_iff in H. destruct H as [H|H].
      * rewrite (IHa H). reflexivity.
      * rewrite H. apply orb_true_r.
    + destruct (Re.nullable a); [|discriminate].
      rewrite (IHb H). apply orb_true_r.
  - intros H. apply orb_true_iff in H. destruct H as [H|H].
    + rewrite (IHa H). reflexivity.
    + rewrite (IHb H). apply orb_true_r.
  - intros H. apply orb_true_iff in H. destruct H as [H|H]; [auto | exact H].
Qed.

(** A matched string is made of characters of the classes of the
    pattern. *)
Lemma matches_alphabet r s :
  Re.matches r s = true -> all_chars (Re.alphabet r) s = true.
Proof.
  revert r. induction s as [|c s IH]; intros r H; [reflexivity|].
  cbn [Re.matches] in H. cbn [all_chars].
  destruct (Re.alphabet r c) eqn:E.
  - cbn [andb]. apply (all_chars_weaken (Re.alphabet (Re.deriv c r))).
    + intros d. apply alphabet_deriv.
    + apply IH, H.
  - rewrite (deriv_outside_alphabet r c E s) in H. discriminate.
Qed.

Lemma domain_pattern_alphabet c :
  Re.alphabet domain_pattern c = true -> domain_char c = true.
Proof.
  intros H.
  pose proof (all_ascii (fun c => implb (Re.alphabet domain_pattern c) (domain_char c)))
    as Hall.
  assert (Hc : implb (Re.alphabet domain_pattern c) (domain_char c) = true)
    by (apply Hall; vm_compute; reflexivity).
  rewrite H in Hc. exact Hc.
Qed.

Lemma chomp_Some s s' :
  Re.chomp s = Some s' -> s = String.append s' line_feed.
Proof.
  revert s'. induction s as [|c s IH]; intros s'; [discriminate|].
  cbn [Re.chomp]. destruct s as [|d s].
  - destruct (Ascii.eqb c (ascii_of_nat 10)) eqn:E; [|discriminate].
    apply Ascii.eqb_eq in E. intros [= <-]. subst c. reflexivity.
  - destruct (Re.chomp (String d s)) as [t|]; [|discriminate].
    intros [= <-]. rewrite (IH t eq_refl). reflexivity.
Qed.

(** X13: a domain that [validate_domain] accepts gives a [target_domain]
    (the text later put into the shell commands) made only of letters,
    digits, hyphens and dots, possibly followed by one line feed, which
    the dollar of the pattern lets through. *)
Theorem validated_domain_has_only_host_characters domain :
  validate_domain domain = true ->
  exists host,
    (target_domain domain = host \/
     target_domain domain = String.append host line_feed) /\
    all_chars domain_char host = true.
Proof.
  unfold validate_domain, target_domain, Re.match_anchored. intros H.
  apply orb_true_iff in H. destruct H as [H|H].
  - exists (strip_scheme domain). split; [left; reflexivity|].
    apply (all_chars_weaken (Re.alphabet domain_pattern));
      [apply domain_pattern_alphabet | apply matches_alphabet, H].
  - destruct (Re.chomp (strip_scheme domain)) as [host|] eqn:E; [|discriminate].
    exists host. split; [right; apply chomp_Some, E|].
    apply (all_chars_weaken (Re.alphabet domain_pattern));
      [apply domain_pattern_alphabet | apply matches_alphabet, H].
Qed.

Lemma validated_domain_has_only_host_characters_witness :
  exists host,
    (target_domain "https://shop.example.com" = host \/
     target_domain "https://shop.example.com" = String.append host line_feed) /\
    all_chars domain_char host = true.
Proof.
  apply (validated_domain_has_only_host_characters "https://shop.example.com").
  vm_compute. reflexivity.
Defined.

(** What [validate_domain] accepts and rejects. *)
Example validate_domain_examples :
  validate_domain "example.com" = true /\
  validate_domain "http://sub-1.example.co" = true /\
  validate_domain "example.com/path" = false /\
  validate_domain "example.com;id" = false /\
  validate_domain "exa_mple.com" = false /\
  validate_domain "-a.example.com" = false /\
  validate_domain "localhost" = false /\
  validate_domain "example.c" = false /\
  validate_domain (String.append "example.com" line_feed) = true.
Proof. repeat split; vm_compute; reflexivity. Qed.

(** The progress of each status the scanner sets. *)
Example calculate_progress_examples :
  map calculate_progress
      [ None; Some "subdomain_enum"; Some "live_filtering"; Some "url_collection";
        Some "sensitive_files"; Some "vulnerability_scan"; Some "completed";
        Some "interrupted"; Some "failed" ] =
  map Some [10; 20; 40; 60; 80; 100; 120; 10; 10]%Z.
Proof. vm_compute. reflexivity. Qed.

(** X9, an instance: a page that always mentions [evil.com] is reported
    for the [Host] header. *)
Lemma header_injection_reports_static_text_witness :
  In (mkHeaderVulnerability "http://t" "Host" "evil.com" Medium)
     (fst (manual_header_injection_testing MoreExamples.mentions_evil ["http://t"])).
Proof.
  apply (header_injection_reports_static_text MoreExamples.mentions_evil
           ["http://t"] "http://t" "Host" "evil.com"
           (mkResponse "contact: admin@evil.com" 0%float [])).
  - left. reflexivity.
  - unfold test_headers. do 6 right. left. reflexivity.
  - intros hs. reflexivity.
  - reflexivity.
Defined.

(** The passwd page is reported with the first indicator of the list it
    contains, not the first in the page. *)
Example lfi_evidence_is_first_of_list :
  fst (test_lfi_payload MoreExamples.passwd_page "http://t/?file=a" "/etc/passwd") =
  Some (mkLfiFinding "http://t/?file=/etc/passwd" "/etc/passwd" "root:x:" High).
Proof. vm_compute. reflexivity. Qed.

Lemma replace_from_absent old new s :
  str_in old s = false -> replace_from old new 0 s = s.
Proof.
  induction s as [|c s IH]; [reflexivity|].
  cbn [str_in replace_from]. intros H.
  apply orb_false_iff in H. destruct H as [Hp Hs].
  rewrite Hp, (IH Hs). reflexivity.
Qed.

(** X14: a domain that contains neither [http://] nor [https://] is used
    as it is: [target_domain] is the domain itself, and it is validated
    against the pattern unchanged. *)
Theorem bare_domain_is_kept domain :
  str_in "http://" domain = false ->
  str_in "https://" domain = false ->
  target_domain domain = domain /\
  validate_domain domain = Re.match_anchored domain_pattern domain.
Proof.
  intros H1 H2.
  assert (E : strip_scheme domain = domain).
  { unfold strip_scheme, str_replace.
    rewrite (replace_from_absent _ _ _ H1). apply replace_from_absent, H2. }
  unfold target_domain, validate_domain. rewrite E. split; reflexivity.
Qed.

Lemma bare_domain_is_kept_witness :
  target_domain "example.com" = "example.com" /\
  validate_domain "example.com" = Re.match_anchored domain_pattern "example.com".
Proof.
  apply (bare_domain_is_kept "example.com"); reflexivity.
Defined.

(** [quote] of a character above 127 escapes the two bytes of its UTF-8
    form; the percent sign itself is escaped. *)
Example quote_latin1 :
  quote (String (ascii_of_nat 233) "%&= ~") = "%C3%A9%25%26%3D%20~".
Proof. vm_compute. reflexivity. Qed.

(** ** Boundary cases *)

(** C3, counterexample: the page holds the HTML-escaped form of the second
    catalogue payload and the payload itself; the code's form keeps the
    double quote, so it is not in the page, and the unit returns a
    [reflected_xss] finding although the HTML-escaped form is present. *)
Lemma html_escaped_form_present_yet_reported :
  html_escape Boundary.quoted_script =
    "&quot;&gt;&lt;script&gt;alert(1)&lt;/script&gt;" /\
  escaped_form Boundary.quoted_script =
    String.concat "" [dq; "&gt;&lt;script&gt;alert(1)&lt;/script&gt;"] /\
  (exists response,
     Boundary.half_escaping
       (xss_probe_request "http://t/?id=1" Boundary.quoted_script) = Some response /\
     str_in Boundary.quoted_script (text response) = true /\
     str_in (html_escape Boundary.quoted_script) (text response) = true) /\
  fst (test_xss_payload Boundary.half_escaping Examples.urlparse_t
         "http://t/?id=1" Boundary.quoted_script) =
    Some (mkFinding "http://t/?id=%22%3E%3Cscript%3Ealert%281%29%3C/script%3E" None
                    (Some Boundary.quoted_script) reflected_xss (Some GET)
                    None None None High).
Proof.
  split; [|split; [|split]].
  - vm_compute. reflexivity.
  - vm_compute. reflexivity.
  - eexists. split; [reflexivity|]. split; vm_compute; reflexivity.
  - vm_compute. reflexivity.
Qed.

(** C4, counterexample: a baseline of 5023 microseconds and a mutated
    response of 5005023 microseconds differ by five seconds exactly, not
    by more; as floats they are 0.005023 and 5.005023, the comparison
    holds, and the unit returns a [time_based_sqli] finding whose
    [time_difference] is 5.0. With 0.2 s and 5.2 s, five seconds apart as
    well, the comparison does not hold. *)
Lemma delta_of_exactly_5_seconds_is_reported :
  (5005023 - 5023 = 5 * 1000000)%Z /\
  total_seconds 5023 = 0.005023%float /\
  total_seconds 5005023 = 5.005023%float /\
  fst (test_sqli_payload Boundary.five_seconds_later "http://t/?id=1" "admin'--") =
    Some (mkFinding "http://t/?id=admin%27--" None (Some "admin'--") time_based_sqli
                    None None (Some 5%float) None High) /\
  timing_check (total_seconds 200000) (total_seconds 5200000) = false.
Proof.
  split; [reflexivity|]. split; [vm_compute; reflexivity|].
  split; [vm_compute; reflexivity|]. split; vm_compute; reflexivity.
Qed.

(** C9, counterexample: a corpus of 21 parameterised URLs, of which only
    [http://t/?id=1] leaks a database error. Listed last it is outside the
    first 20 and the SQLi scan leaves no finding; listed first, the same
    corpus leaves four. *)
Lemma order_of_a_large_corpus_changes_the_findings :
  Permutation (Boundary.twenty_urls ++ ["http://t/?id=1"])
              ("http://t/?id=1" :: Boundary.twenty_urls) /\
  List.NoDup ("http://t/?id=1" :: Boundary.twenty_urls) /\
  manual_sqli_testing Boundary.id_leaks
    (Boundary.twenty_urls ++ ["http://t/?id=1"]) sqli_payloads_first4 [] [] /\
  manual_sqli_testing Boundary.id_leaks
    ("http://t/?id=1" :: Boundary.twenty_urls) sqli_payloads_first4 []
    (manual_sqli_testing_in_order Boundary.id_leaks
       ("http://t/?id=1" :: Boundary.twenty_urls) sqli_payloads_first4 []) /\
  map f_type (manual_sqli_testing_in_order Boundary.id_leaks
                ("http://t/?id=1" :: Boundary.twenty_urls) sqli_payloads_first4 []) =
    [error_based_sqli; error_based_sqli; error_based_sqli; error_based_sqli].
Proof.
  split; [|split; [|split; [|split]]].
  - apply Permutation_sym, Permutation_cons_append.
  - apply NoDup_ListNoDup, (bool_decide_unpack _). vm_compute. reflexivity.
  - eexists. split; [apply Permutation_refl | vm_compute; reflexivity].
  - eexists. split; [apply Permutation_refl | reflexivity].
  - vm_compute. reflexivity.
Qed.
